(** * Water-level API (src/main.py): a shallow embedding and its properties

    The program is a FastAPI application over one SQLite table,
    [water_levels (id INTEGER PRIMARY KEY, level FLOAT NOT NULL)], with two
    POST handlers that insert readings, two GET handlers that read them back
    and one GET handler that fits an ARIMA(5,1,0) model to the stored levels
    and returns a 15 step forecast.

    What is embedded from the source:
    - the five handlers, [load_water_levels], [forecast_water_levels] and the
      [get_db] dependency, statement by statement, in a state-and-exception
      monad [M];
    - the Pydantic bodies [WaterLevel] / [WaterLevels] and the ORM class
      [WaterLevelModel] as records, the returned Python dicts as [value]s.

    What stands for the libraries the source calls:
    - SQLite / SQLAlchemy: the table is the list of its rows in rowid order
      (the order of an unordered table scan); INSERT allocates
      [largest rowid + 1] (1 on an empty table) until the largest rowid is
      2^63-1, when SQLite looks for an unused rowid at random; it is refused
      when the value violates [nullable=False]; the row holds what the REAL
      column makes of the value; [commit] flushes [session.new] inside one
      transaction.  What depends on the engine is the interface [SQLite].
    - pandas / statsmodels: an interface [Statsmodels] of three functions that
      either raise or return; every call is recorded in the state, so that
      "the model is (not) fitted" is a statement about that record.
    - FastAPI: what a handler returns is encoded as JSON and sent with
      status 200, unless it holds a float JSON has no notation for (nan,
      inf), when the encoder raises; an [HTTPException] is sent with its
      status code, any other exception as 500.
    - Levels are Python floats.  The handlers only store them and hand them
      to the library, so the type of levels is a parameter [Float]; what
      the program needs to know of floats is in [Floats] and [SQLite]. *)

From Stdlib Require Import List ZArith String Ascii Bool Lia Sorted Permutation.
From Stdlib Require Import DecimalString DecimalPos DecimalZ PrimFloat.
Import ListNotations.

Local Open Scope string_scope.
Local Open Scope list_scope.
Local Open Scope Z_scope.

(** ** Python helpers *)

(** [len(l)] *)
Definition len {A : Type} (l : list A) : Z := Z.of_nat (List.length l).

(** [str(n)] for an int, as an f-string formats it. *)
Definition str (n : Z) : string := NilZero.string_of_int (Z.to_int n).

(** [enumerate(l)], counting from [i]. *)
Fixpoint enumerate_from {A : Type} (i : Z) (l : list A) : list (Z * A) :=
  match l with
  | [] => []
  | x :: l' => (i, x) :: enumerate_from (i + 1) l'
  end.

Definition enumerate {A : Type} (l : list A) : list (Z * A) := enumerate_from 0 l.

(** [d[k] = v] on a dict kept as an association list in insertion order: an
    existing key keeps its place and takes the new value, a new key goes
    last. *)
Fixpoint dict_set {V : Type} (d : list (string * V)) (k : string) (v : V)
  : list (string * V) :=
  match d with
  | [] => [(k, v)]
  | (k', v') :: d' =>
      if String.eqb k' k then (k', v) :: d' else (k', v') :: dict_set d' k v
  end.

Definition keys {V : Type} (d : list (string * V)) : list string := map fst d.

(** The integers [i], [i+1], ..., [i+n-1]. *)
Fixpoint count_from (i : Z) (n : nat) : list Z :=
  match n with
  | O => []
  | S n' => i :: count_from (i + 1) n'
  end.

(** ** Floats and SQLite *)

(** [isfinite x]: [x] is neither a NaN nor an infinity, the floats that
    [json.dumps(..., allow_nan=False)] writes. *)
Class Floats (Float : Type) : Type := {
  isfinite : Float -> bool
}.

(** What the program's INSERT depends on in SQLite.
    - [is_null v]: sqlite3 binds [v] as NULL (what it does with a NaN), which
      the column [level = Column(Float, nullable=False)] refuses.
    - [as_real v]: the float a REAL column gives back for the bound value
      [v] (a value without fractional part is kept as an integer, so -0.0
      comes back as 0.0).
    - [random_rowid ids]: the unused rowid SQLite finds by random probing
      when the largest rowid in [ids] is 2^63-1, [None] when it gives up
      (SQLITE_FULL). *)
Class SQLite (Float : Type) : Type := {
  is_null : Float -> bool;
  as_real : Float -> Float;
  random_rowid : list Z -> option Z
}.

(** The largest rowid, 2^63-1. *)
Definition MAX_ROWID : Z := 9223372036854775807.

(** ** The statsmodels interface *)

(** [ARIMA(series, order=...)], [model.fit()] and
    [model_fit.forecast(steps=...)]: each either raises ([inl]) or returns
    ([inr]).  A pandas Series of floats is the list of its values, so
    [pd.Series(data)] and [.tolist()] are identities. *)
Class Statsmodels (Float : Type) : Type := {
  lib_exn : Type;
  ARIMAModel : Type;
  ARIMAResults : Type;
  ARIMA : list Float -> Z * Z * Z -> lib_exn + ARIMAModel;
  fit : ARIMAModel -> lib_exn + ARIMAResults;
  forecast : ARIMAResults -> Z -> lib_exn + list Float
}.

(** The contract of [forecast(steps=n)] that the length claims rest on: when it
    returns, it returns [n] values. *)
Definition forecast_has_steps {Float : Type} (lib : Statsmodels Float) : Prop :=
  forall (r : ARIMAResults) (steps : Z) (p : list Float),
    forecast r steps = inr p -> len p = steps.

Section WaterLevelAPI.

Context {Float : Type} {fl : Floats Float} {db : SQLite Float}
        {lib : Statsmodels Float}.

(** ** Data model *)

(** class WaterLevelModel(Base): an ORM instance.  [m_id] is [None] until the
    instance has been flushed; [m_expired] is set by [commit], after which the
    next attribute read reloads the instance from its row. *)
Record WaterLevelModel : Type := mkWaterLevelModel {
  m_id : option Z;
  m_level : Float;
  m_expired : bool
}.

(** class WaterLevel(BaseModel) *)
Record WaterLevel : Type := mkWaterLevel { level : Float }.

(** class WaterLevels(BaseModel) *)
Record WaterLevels : Type := mkWaterLevels { levels : list WaterLevel }.

(** A row of the table [water_levels]. *)
Record row : Type := mkRow { r_id : Z; r_level : Float }.

(** The table, as a scan without ORDER BY walks it. *)
Definition Table : Type := list row.

(** What a handler returns: a JSON-able Python value. *)
#[warnings="-register-all"] Inductive value : Type :=
| VStr (s : string)
| VFloat (x : Float)
| VList (l : list value)
| VDict (d : list (string * value)).

(** Exceptions that leave a handler. *)
Inductive exn : Type :=
| HTTPException (status_code : Z) (detail : string)
| IndexError
| IntegrityError
| OperationalError
| InvalidRequestError
| ObjectDeletedError
| LibError (e : lib_exn).

Inductive outcome (A : Type) : Type :=
| Return (a : A)
| Raise (e : exn).
Arguments Return {A} a.
Arguments Raise {A} e.

(** A call into statsmodels, as recorded. *)
Inductive LibCall : Type :=
| Call_ARIMA (endog : list Float) (order : Z * Z * Z)
| Call_fit (model : ARIMAModel)
| Call_forecast (model_fit : ARIMAResults) (steps : Z).

(** A reference to an instance the handler created: its index in [heap]. *)
Definition ref : Type := nat.

(** The state a handler runs in: the committed table, the instances the
    handler has created, the ones added to the session and not yet flushed
    ([session.new]), and the library calls made so far. *)
Record State : Type := mkState {
  db_table : Table;
  heap : list WaterLevelModel;
  session_new : list ref;
  lib_calls : list LibCall
}.

(** ** The monad of handlers *)

Definition M (A : Type) : Type := State -> outcome A * State.

Definition ret {A : Type} (a : A) : M A := fun s => (Return a, s).

Definition raise {A : Type} (e : exn) : M A := fun s => (Raise e, s).

Definition bind {A B : Type} (m : M A) (k : A -> M B) : M B :=
  fun s =>
    match m s with
    | (Return a, s') => k a s'
    | (Raise e, s') => (Raise e, s')
    end.

Notation "x <- m ;; k" := (bind m (fun x => k))
  (at level 61, m at next level, right associativity).
Notation "m ;;; k" := (bind m (fun _ => k))
  (at level 61, right associativity).

Fixpoint mapM {A B : Type} (f : A -> M B) (l : list A) : M (list B) :=
  match l with
  | [] => ret []
  | x :: l' => y <- f x ;; ys <- mapM f l' ;; ret (y :: ys)
  end.

(** ** SQLite: the table [water_levels] *)

(** The largest rowid in use, [None] on an empty table. *)
Fixpoint max_rowid (t : Table) : option Z :=
  match t with
  | [] => None
  | r :: t' =>
      match max_rowid t' with
      | None => Some (r_id r)
      | Some m => Some (Z.max (r_id r) m)
      end
  end.

(** One more than the largest rowid in use, 1 on an empty table. *)
Definition next_rowid (t : Table) : Z :=
  match max_rowid t with
  | None => 1
  | Some m => m + 1
  end.

(** The rowid an INSERT without an explicit id receives: [next_rowid] while
    the largest rowid is below [MAX_ROWID]; after that the rowid SQLite
    finds by random probing, which is in range and not in use; [None] when
    it finds none. *)
Definition new_rowid (t : Table) : option Z :=
  if next_rowid t <=? MAX_ROWID then Some (next_rowid t)
  else
    match random_rowid (map r_id t) with
    | Some i =>
        if (0 <? i) && (i <=? MAX_ROWID) && negb (existsb (Z.eqb i) (map r_id t))
        then Some i
        else None
    | None => None
    end.

(** The table keeps its rows in ascending rowid order: a new row goes in
    front of the first row with a larger rowid. *)
Fixpoint store_row (r : row) (t : Table) : Table :=
  match t with
  | [] => [r]
  | r' :: t' =>
      if r_id r <? r_id r' then r :: r' :: t' else r' :: store_row r t'
  end.

(** [INSERT INTO water_levels (level) VALUES (v)]: the rowid is allocated
    (SQLITE_FULL when there is none), the NOT NULL constraint is checked,
    and the row, holding what the REAL column makes of [v], is stored.  The
    result is the error raised, or the new table and the row. *)
Definition sql_insert (t : Table) (v : Float) : exn + (Table * row) :=
  match new_rowid t with
  | None => inl OperationalError
  | Some i =>
      if is_null v then inl IntegrityError
      else
        let r := mkRow i (as_real v) in
        inr (store_row r t, r)
  end.

(** [SELECT ... WHERE id = i] *)
Definition sql_get (t : Table) (i : Z) : option row :=
  find (fun r => r_id r =? i) t.

(** [ORDER BY id DESC]: insertion of each row into a descending result. *)
Fixpoint place_desc (r : row) (l : list row) : list row :=
  match l with
  | [] => [r]
  | r' :: l' =>
      if r_id r' <? r_id r then r :: r' :: l' else r' :: place_desc r l'
  end.

Definition order_by_id_desc (t : Table) : list row :=
  fold_right place_desc [] t.

(** The instance the ORM builds from a row. *)
Definition of_row (r : row) : WaterLevelModel :=
  mkWaterLevelModel (Some (r_id r)) (r_level r) false.

(** ** SQLAlchemy: the session *)

(** The instance at reference [n] becomes [x]; a reference past the end of
    the heap changes nothing (no operation below reaches that case: each
    looks the reference up first). *)
Fixpoint update {A : Type} (l : list A) (n : nat) (x : A) : list A :=
  match l, n with
  | [], _ => []
  | _ :: l', O => x :: l'
  | y :: l', S n' => y :: update l' n' x
  end.

(** [WaterLevelModel(level=v)]: a new transient instance. *)
Definition new_WaterLevelModel (v : Float) : M ref :=
  fun s =>
    (Return (List.length (heap s)),
     mkState (db_table s) (heap s ++ [mkWaterLevelModel None v false])
             (session_new s) (lib_calls s)).

(** [db.add(obj)] *)
Definition db_add (obj : ref) : M unit :=
  fun s => (Return tt,
            mkState (db_table s) (heap s) (session_new s ++ [obj]) (lib_calls s)).

(** [db.add_all(objs)] *)
Definition db_add_all (objs : list ref) : M unit :=
  fun s => (Return tt,
            mkState (db_table s) (heap s) (session_new s ++ objs) (lib_calls s)).

(** The unit of work of [flush]: one INSERT per pending instance, in the
    order the instances were added; each instance receives the primary key
    of its row and is marked expired.  The first INSERT that fails ends
    the flush with its error. *)
Fixpoint flush (t : Table) (hp : list WaterLevelModel) (pending : list ref)
  : exn + (Table * list WaterLevelModel) :=
  match pending with
  | [] => inr (t, hp)
  | obj :: pending' =>
      match nth_error hp obj with
      | None => inl InvalidRequestError
      | Some o =>
          match sql_insert t (m_level o) with
          | inl e => inl e
          | inr (t1, r) =>
              flush t1
                    (update hp obj (mkWaterLevelModel (Some (r_id r)) (m_level o) true))
                    pending'
          end
      end
  end.

(** [db.commit()]: flush and COMMIT as one transaction.  When an INSERT
    fails its error is raised and the transaction is rolled back: the table
    is the one before the call. *)
Definition db_commit : M unit :=
  fun s =>
    match flush (db_table s) (heap s) (session_new s) with
    | inr (t', hp') => (Return tt, mkState t' hp' [] (lib_calls s))
    | inl e => (Raise e, s)
    end.

(** [db.refresh(obj)]: reload the instance from its row, by primary key. *)
Definition db_refresh (obj : ref) : M unit :=
  fun s =>
    match nth_error (heap s) obj with
    | None => (Raise InvalidRequestError, s)
    | Some o =>
        match m_id o with
        | None => (Raise InvalidRequestError, s)
        | Some i =>
            match sql_get (db_table s) i with
            | None => (Raise InvalidRequestError, s)
            | Some r =>
                (Return tt,
                 mkState (db_table s) (update (heap s) obj (of_row r))
                         (session_new s) (lib_calls s))
            end
        end
    end.

(** [obj.level] on an instance of the session: an expired instance is first
    reloaded from its row. *)
Definition get_level (obj : ref) : M Float :=
  fun s =>
    match nth_error (heap s) obj with
    | None => (Raise InvalidRequestError, s)
    | Some o =>
        if m_expired o then
          match m_id o with
          | None => (Raise ObjectDeletedError, s)
          | Some i =>
              match sql_get (db_table s) i with
              | None => (Raise ObjectDeletedError, s)
              | Some r =>
                  (Return (r_level r),
                   mkState (db_table s) (update (heap s) obj (of_row r))
                           (session_new s) (lib_calls s))
              end
          end
        else (Return (m_level o), s)
    end.

(** The three queries.  The instances a query loads are read once and never
    changed by the handlers, so a query returns them by value. *)

(** [db.query(WaterLevelModel.level).all()]: one 1-tuple per row. *)
Definition query_level_all : M (list (list Float)) :=
  fun s => (Return (map (fun r => [r_level r]) (db_table s)), s).

(** [db.query(WaterLevelModel).all()] *)
Definition query_all : M (list WaterLevelModel) :=
  fun s => (Return (map of_row (db_table s)), s).

(** [db.query(WaterLevelModel).order_by(WaterLevelModel.id.desc()).first()] *)
Definition query_order_by_id_desc_first : M (option WaterLevelModel) :=
  fun s =>
    (Return (option_map of_row (hd_error (order_by_id_desc (db_table s)))), s).

(** [tup[0]] *)
Definition index0 {A : Type} (tup : list A) : M A :=
  match tup with
  | [] => raise IndexError
  | x :: _ => ret x
  end.

(** ** statsmodels calls, recorded *)

Definition lib_call {A : Type} (c : LibCall) (r : lib_exn + A) : M A :=
  fun s =>
    let s' := mkState (db_table s) (heap s) (session_new s) (lib_calls s ++ [c]) in
    match r with
    | inl e => (Raise (LibError e), s')
    | inr a => (Return a, s')
    end.

Definition call_ARIMA (endog : list Float) (order : Z * Z * Z) : M ARIMAModel :=
  lib_call (Call_ARIMA endog order) (ARIMA endog order).

Definition call_fit (model : ARIMAModel) : M ARIMAResults :=
  lib_call (Call_fit model) (fit model).

Definition call_forecast (model_fit : ARIMAResults) (steps : Z) : M (list Float) :=
  lib_call (Call_forecast model_fit steps) (forecast model_fit steps).

(** ** The program *)

(** def load_water_levels(db) *)
Definition load_water_levels : M (list Float) :=
  water_levels <- query_level_all ;;
  mapM (fun level => index0 level) water_levels.

(** def forecast_water_levels(data, days_ahead=15) *)
Definition forecast_water_levels (data : list Float) (days_ahead : Z)
  : M (list Float) :=
  let data_series := data in
  model <- call_ARIMA data_series (5, 1, 0) ;;
  model_fit <- call_fit model ;;
  forecast <- call_forecast model_fit days_ahead ;;
  ret forecast.

(** POST /water-level/ *)
Definition add_water_level (data : WaterLevel) : M value :=
  new_level <- new_WaterLevelModel (level data) ;;
  db_add new_level ;;;
  db_commit ;;;
  db_refresh new_level ;;;
  new_level_level <- get_level new_level ;;
  ret (VDict [("message", VStr "Water level added successfully");
              ("level", VFloat new_level_level)]).

(** POST /water-levels/ *)
Definition add_multiple_water_levels (data : WaterLevels) : M value :=
  new_levels <- mapM (fun entry => new_WaterLevelModel (level entry)) (levels data) ;;
  db_add_all new_levels ;;;
  db_commit ;;;
  echoed <- mapM (fun entry => get_level entry) new_levels ;;
  ret (VDict [("message", VStr "Water levels added successfully");
              ("levels", VList (map VFloat echoed))]).

(** GET /water-level/latest/ *)
Definition get_latest_water_level : M value :=
  result <- query_order_by_id_desc_first ;;
  match result with
  | None => raise (HTTPException 404 "No water level data available")
  | Some result => ret (VDict [("latest_level", VFloat (m_level result))])
  end.

(** GET /water-level/all/ *)
Definition get_all_water_levels : M value :=
  results <- query_all ;;
  match results with
  | [] => raise (HTTPException 404 "No water level data available")
  | _ :: _ =>
      ret (VDict [("all_levels", VList (map (fun entry => VFloat (m_level entry)) results))])
  end.

(** GET /water-level/forecast/ *)
Definition forecast_next_15_days : M value :=
  historical_data <- load_water_levels ;;
  if len historical_data <? 10 then
    ret (VDict [("error",
                 VStr "Not enough data to make a prediction. Please add more data points.")])
  else
    prediction <- forecast_water_levels historical_data 15 ;;
    let forecast :=
      fold_left (fun d '(i, level) => dict_set d ("day_" ++ str (i + 1)) (VFloat level))
                (enumerate prediction) [] in
    ret (VDict [("15_day_forecast", VDict forecast)]).

(** def get_db(): every request runs its handler on a session of its own,
    opened on the table as committed so far and closed when the handler
    returns or raises; what was not committed is dropped.  The result is the
    handler's outcome, the table the request leaves and the library calls it
    made. *)
Definition get_db {A : Type} (handler : M A) (t : Table)
  : outcome A * Table * list LibCall :=
  let '(out, s) := handler (mkState t [] [] []) in
  (out, db_table s, lib_calls s).

(** [json.dumps(v, allow_nan=False)] succeeds: no float in [v] is a NaN or
    an infinity. *)
Fixpoint json_ok (v : value) : bool :=
  match v with
  | VStr _ => true
  | VFloat x => isfinite x
  | VList l => forallb json_ok l
  | VDict d => forallb (fun kv => json_ok (snd kv)) d
  end.

(** FastAPI: a returned dict is encoded and sent with status 200; when the
    encoder raises, and for any exception no handler catches, the answer is
    500 Internal Server Error; an [HTTPException] is sent with its
    [status_code]. *)
Definition http_status (out : outcome value) : Z :=
  match out with
  | Return v => if json_ok v then 200 else 500
  | Raise (HTTPException status_code _) => status_code
  | Raise _ => 500
  end.

(** ** Results of a request, by name *)

Definition response {A : Type} (x : outcome A * Table * list LibCall)
  : outcome A := fst (fst x).

Definition table_after {A : Type} (x : outcome A * Table * list LibCall)
  : Table := snd (fst x).

Definition calls_made {A : Type} (x : outcome A * Table * list LibCall)
  : list LibCall := snd x.

(** The table is in ascending rowid order without repeated rowids: what the
    primary key and the rowid order of the scan give. *)
Definition wf_table (t : Table) : Prop :=
  StronglySorted Z.lt (map r_id t).

(** Rows for the values [vs], numbered [i], [i+1], ... in the order of [vs]. *)
Fixpoint number_rows (i : Z) (vs : list Float) : Table :=
  match vs with
  | [] => []
  | v :: vs' => mkRow i v :: number_rows (i + 1) vs'
  end.

(** The two payloads the read and forecast handlers answer with when there
    is nothing to compute from. *)
Definition insufficient_data : value :=
  VDict [("error",
          VStr "Not enough data to make a prediction. Please add more data points.")].

Definition not_found : exn :=
  HTTPException 404 "No water level data available".

(** A transient instance holding [v], and the instance [flush] makes of it
    once its row is [r]. *)
Definition transient (v : Float) : WaterLevelModel :=
  mkWaterLevelModel None v false.

Definition flushed (rv : row * Float) : WaterLevelModel :=
  mkWaterLevelModel (Some (r_id (fst rv))) (snd rv) true.

(** One INSERT per value, in order: the error of the first INSERT that
    fails, or the table and the rows. *)
Fixpoint insert_all (t : Table) (vs : list Float) : exn + (Table * list row) :=
  match vs with
  | [] => inr (t, [])
  | v :: vs' =>
      match sql_insert t v with
      | inl e => inl e
      | inr (t1, r) =>
          match insert_all t1 vs' with
          | inl e => inl e
          | inr (t2, rows) => inr (t2, r :: rows)
          end
      end
  end.

(** [n] more rows fit below the rowid ceiling: the rowids
    [next_rowid t], ..., [next_rowid t + n - 1] are at most [MAX_ROWID]. *)
Definition has_room (t : Table) (n : nat) : Prop :=
  next_rowid t + Z.of_nat n <= MAX_ROWID + 1.

(** SQLite accepts the value. *)
Definition accepted (v : Float) : bool := negb (is_null v).

(** The dict the forecast handler builds from the prediction. *)
Definition forecast_dict (prediction : list Float) : list (string * value) :=
  fold_left (fun d '(i, level) => dict_set d ("day_" ++ str (i + 1)) (VFloat level))
            (enumerate prediction) [].

(** ** Sequences of insertions *)

(** A request that inserts: the body of POST /water-level/ or of
    POST /water-levels/. *)
Inductive insertion : Type :=
| One (data : WaterLevel)
| Many (data : WaterLevels).

(** The values a request asks to insert, in order. *)
Definition inserted_levels (q : insertion) : list Float :=
  match q with
  | One data => [level data]
  | Many data => map level (levels data)
  end.

(** The table after the request has been served. *)
Definition serve_insertion (t : Table) (q : insertion) : Table :=
  match q with
  | One data => table_after (get_db (add_water_level data) t)
  | Many data => table_after (get_db (add_multiple_water_levels data) t)
  end.

(** The day labels of the forecast payload. *)
Definition day_labels : list string :=
  ["day_1"; "day_2"; "day_3"; "day_4"; "day_5"; "day_6"; "day_7"; "day_8";
   "day_9"; "day_10"; "day_11"; "day_12"; "day_13"; "day_14"; "day_15"].

(** The entries the forecast handler builds when no two predictions get the
    same key: one per prediction, in order, keyed by its day. *)
Definition day_entries (prediction : list Float) : list (string * value) :=
  map (fun '(i, level) => (("day_" ++ str (i + 1))%string, VFloat level))
      (enumerate prediction).

(** What a request stores, in one transaction, when there is room: the
    REAL of every value, or nothing when one value is refused. *)
Definition stored_levels (q : insertion) : list Float :=
  if forallb (fun v => negb (is_null v)) (inserted_levels q)
  then map as_real (inserted_levels q)
  else [].

(** A series whose values are all the same. *)
Definition constant_series (l : list Float) : Prop :=
  forall x y, In x l -> In y l -> x = y.

End WaterLevelAPI.

Arguments Return {Float lib A} a.
Arguments Raise {Float lib A} e.

(** ** Sample instances, for running the handlers *)

Module Sample.

(** Levels as binary64 floats. *)
#[global] Instance binary64 : Floats float := {|
  isfinite := PrimFloat.is_finite
|}.

(** A stand-in for SQLite's random probing: the smallest positive rowid not
    in use. *)
Definition first_unused (ids : list Z) : option Z :=
  find (fun i => negb (existsb (Z.eqb i) ids))
       (count_from 1 (S (List.length ids))).

(** SQLite on binary64 floats: a NaN is bound as NULL, and a zero of either
    sign is stored as the integer 0 and read back as 0.0. *)
#[global] Instance sqlite3 : SQLite float := {|
  is_null := PrimFloat.is_nan;
  as_real x := if (x =? 0)%float then 0%float else x;
  random_rowid := first_unused
|}.

(** A stand-in for statsmodels that forecasts the last observation, and
    refuses an empty series and a negative number of steps. *)
Definition naive : Statsmodels float := {|
  lib_exn := string;
  ARIMAModel := list float;
  ARIMAResults := float;
  ARIMA endog order := inr endog;
  fit model :=
    match rev model with
    | [] => inl "ValueError"
    | x :: _ => inr x
    end;
  forecast model_fit steps :=
    if steps <? 0 then inl "ValueError"
    else inr (repeat model_fit (Z.to_nat steps))
|}.

(** A stand-in whose fit never converges. *)
Definition failing : Statsmodels float := {|
  lib_exn := string;
  ARIMAModel := list float;
  ARIMAResults := float;
  ARIMA endog order := inr endog;
  fit model := inl "LinAlgError";
  forecast model_fit steps := inr []
|}.

(** The exception [failing] raises. *)
Definition LinAlgError : @lib_exn float failing := "LinAlgError".

Definition three : list float := [1.0; 2.0; 3.0]%float.

Definition ten : list float :=
  [5.0; 5.125; 5.25; 5.0; 4.875; 5.25; 5.5; 5.25; 5.125; 5.0]%float.

Definition table_of (vs : list float) : Table := number_rows 1 vs.

(** A stand-in whose forecast has two values, whatever the steps asked. *)
Definition two_values : Statsmodels float := {|
  lib_exn := string;
  ARIMAModel := list float;
  ARIMAResults := float;
  ARIMA endog order := inr endog;
  fit model := inr 0%float;
  forecast model_fit steps := inr [model_fit; model_fit]
|}.

Definition nine : list float :=
  [5.0; 5.125; 5.25; 5.0; 4.875; 5.25; 5.5; 5.25; 5.125]%float.

(** A table with the levels of [three] under ids that are not consecutive. *)
Definition sparse_three : Table :=
  [mkRow 5 1.0%float; mkRow 7 2.0%float; mkRow 9 3.0%float].

(** A stand-in that refuses a series holding a NaN or an infinity, and
    otherwise forecasts the last observation. *)
Definition finite_only : Statsmodels float := {|
  lib_exn := string;
  ARIMAModel := list float;
  ARIMAResults := float;
  ARIMA endog order :=
    if forallb PrimFloat.is_finite endog then inr endog else inl "ValueError";
  fit model :=
    match rev model with
    | [] => inl "ValueError"
    | x :: _ => inr x
    end;
  forecast model_fit steps :=
    if steps <? 0 then inl "ValueError"
    else inr (repeat model_fit (Z.to_nat steps))
|}.

(** The exception [finite_only] raises. *)
Definition ValueError : @lib_exn float finite_only := "ValueError".

(** Ten readings, one of them an infinity. *)
Definition ten_with_infinity : list float :=
  [5.0; 5.125; 5.25; infinity; 4.875; 5.25; 5.5; 5.25; 5.125; 5.0]%float.

(** Ten equal readings. *)
Definition ten_equal : list float := repeat 5.0%float 10.

(** A table whose largest rowid is the last one there is. *)
Definition full_table : Table :=
  [mkRow 1 1.0%float; mkRow MAX_ROWID 2.0%float].

(** The two POST requests. *)
Definition post_many (vs : list float) : M value :=
  add_multiple_water_levels (lib := naive) (mkWaterLevels (map mkWaterLevel vs)).

Definition post_one (v : float) : M value :=
  add_water_level (lib := naive) (mkWaterLevel v).

End Sample.

(** * Properties *)

Section Properties.

Context {Float : Type} {fl : Floats Float} {db : SQLite Float}
        {lib : Statsmodels Float}.

Implicit Types (t : @Table Float) (r : @row Float) (v : Float) (vs : list Float).

(** ** Rowids *)

Lemma max_rowid_bound t m :
  max_rowid t = Some m -> Forall (fun r => r_id r <= m) t.
Proof.
  revert m; induction t as [|r t IH]; intros m Hm; [constructor|].
  simpl in Hm. destruct (max_rowid t) as [m'|] eqn:E.
  - injection Hm as <-. constructor; [lia|].
    eapply Forall_impl; [|apply IH; reflexivity].
    simpl; intros; lia.
  - injection Hm as <-. destruct t; [repeat constructor; lia | simpl in E].
    destruct (max_rowid t); discriminate.
Qed.

Lemma next_rowid_fresh t : Forall (fun r => r_id r < next_rowid t) t.
Proof.
  unfold next_rowid. destruct (max_rowid t) as [m|] eqn:E.
  - eapply Forall_impl; [|apply max_rowid_bound, E]. simpl; intros; lia.
  - destruct t as [|r t]; [constructor | simpl in E].
    destruct (max_rowid t); discriminate.
Qed.

Lemma max_rowid_snoc t r :
  Forall (fun r' => r_id r' < r_id r) t -> max_rowid (t ++ [r]) = Some (r_id r).
Proof.
  induction t as [|r' t IH]; intros H; [reflexivity|].
  inversion H as [|? ? Hr' Ht]; subst. simpl. rewrite (IH Ht). f_equal; lia.
Qed.

Lemma next_rowid_snoc t r :
  Forall (fun r' => r_id r' < r_id r) t -> next_rowid (t ++ [r]) = r_id r + 1.
Proof. intros H. unfold next_rowid. now rewrite max_rowid_snoc. Qed.

Lemma store_row_snoc t r :
  Forall (fun r' => r_id r' < r_id r) t -> store_row r t = t ++ [r].
Proof.
  induction t as [|r' t IH]; intros H; [reflexivity|].
  inversion H as [|? ? Hr' Ht]; subst. simpl.
  destruct (Z.ltb_spec (r_id r) (r_id r')); [lia|]. now rewrite IH.
Qed.

Lemma number_rows_range i vs :
  Forall (fun r => i <= r_id r < i + len vs) (number_rows i vs).
Proof.
  revert i; induction vs as [|v vs IH]; intros i; simpl; constructor.
  - simpl. unfold len; simpl List.length. lia.
  - eapply Forall_impl; [|apply IH]. simpl. unfold len; simpl List.length.
    intros; lia.
Qed.

Lemma number_rows_app i vs ws :
  number_rows i (vs ++ ws) = number_rows i vs ++ number_rows (i + len vs) ws.
Proof.
  revert i; induction vs as [|v vs IH]; intros i; simpl.
  - f_equal. unfold len; simpl; lia.
  - rewrite IH. do 3 f_equal. unfold len; simpl List.length. lia.
Qed.

Lemma number_rows_levels i vs : map r_level (number_rows i vs) = vs.
Proof. revert i; induction vs as [|v vs IH]; intros i; simpl; [|rewrite IH]; reflexivity. Qed.

Lemma number_rows_ids i vs :
  map r_id (number_rows i vs) = count_from i (List.length vs).
Proof. revert i; induction vs as [|v vs IH]; intros i; simpl; [|rewrite IH]; reflexivity. Qed.

Lemma number_rows_length i vs : List.length (number_rows i vs) = List.length vs.
Proof. revert i; induction vs as [|v vs IH]; intros i; simpl; [|rewrite IH]; reflexivity. Qed.

Lemma next_rowid_number_rows t vs :
  next_rowid (t ++ number_rows (next_rowid t) vs) = next_rowid t + len vs.
Proof.
  induction vs as [|v vs IH] using rev_ind.
  - simpl. rewrite app_nil_r. unfold len; simpl; lia.
  - rewrite number_rows_app, app_assoc. simpl number_rows.
    rewrite next_rowid_snoc.
    + simpl. unfold len. rewrite length_app. simpl List.length. lia.
    + simpl. apply Forall_app; split.
      * eapply Forall_impl; [|apply next_rowid_fresh]. simpl; unfold len; intros; lia.
      * eapply Forall_impl; [|apply number_rows_range]. simpl; intros; lia.
Qed.

(** ** One INSERT *)

Lemma in_ids_existsb (i : Z) (ids : list Z) :
  existsb (Z.eqb i) ids = false -> ~ In i ids.
Proof.
  intros H Hin. assert (existsb (Z.eqb i) ids = true); [|congruence].
  apply existsb_exists. exists i. split; [exact Hin | apply Z.eqb_refl].
Qed.

(** The rowid of a new row is not in use. *)
Lemma new_rowid_fresh t (i : Z) : new_rowid t = Some i -> ~ In i (map r_id t).
Proof.
  unfold new_rowid. destruct (next_rowid t <=? MAX_ROWID).
  - intros [= <-] Hin. apply in_map_iff in Hin as (r & Hr & Hin).
    pose proof (next_rowid_fresh t) as Hf. rewrite Forall_forall in Hf.
    specialize (Hf _ Hin). cbn in Hf. lia.
  - destruct (random_rowid (map r_id t)) as [j|]; [|discriminate].
    destruct (existsb (Z.eqb j) (map r_id t)) eqn:E;
      [rewrite andb_false_r; discriminate|].
    destruct ((0 <? j) && (j <=? MAX_ROWID)); [|discriminate].
    intros [= <-]. now apply in_ids_existsb.
Qed.

Lemma new_rowid_room t :
  next_rowid t <= MAX_ROWID -> new_rowid t = Some (next_rowid t).
Proof.
  intros H. unfold new_rowid.
  destruct (Z.leb_spec (next_rowid t) MAX_ROWID); [reflexivity | lia].
Qed.

Lemma sql_insert_inv t v (t' : Table) r :
  sql_insert t v = inr (t', r) ->
  t' = store_row r t /\ r_level r = as_real v /\ is_null v = false /\
  ~ In (r_id r) (map r_id t).
Proof.
  unfold sql_insert. destruct (new_rowid t) as [i|] eqn:E; [|discriminate].
  destruct (is_null v); [discriminate|]. intros [= <- <-]. cbn.
  repeat split. now apply new_rowid_fresh.
Qed.

(** Below the ceiling an INSERT appends: the new rowid is larger than every
    rowid in use. *)
Lemma sql_insert_room t v :
  next_rowid t <= MAX_ROWID ->
  sql_insert t v =
  if is_null v then inl IntegrityError
  else inr (t ++ [mkRow (next_rowid t) (as_real v)],
            mkRow (next_rowid t) (as_real v)).
Proof.
  intros H. unfold sql_insert. rewrite (new_rowid_room t H).
  destruct (is_null v); [reflexivity|].
  rewrite store_row_snoc; [reflexivity | apply next_rowid_fresh].
Qed.

Lemma store_row_ids r t (k : Z) :
  In k (map r_id (store_row r t)) <-> k = r_id r \/ In k (map r_id t).
Proof.
  induction t as [|r' t IH]; cbn [store_row map In].
  - intuition.
  - destruct (r_id r <? r_id r'); cbn [map In]; rewrite ?IH; intuition.
Qed.

Lemma store_row_perm r t : Permutation (store_row r t) (r :: t).
Proof.
  induction t as [|r' t IH]; cbn [store_row]; [reflexivity|].
  destruct (r_id r <? r_id r'); [reflexivity|].
  rewrite IH. apply perm_swap.
Qed.

(** ** Lookup by primary key *)

Lemma sql_get_in t (k : Z) r : sql_get t k = Some r -> In k (map r_id t).
Proof.
  unfold sql_get. intros H. apply find_some in H as [Hin Hk].
  apply Z.eqb_eq in Hk. subst k. now apply in_map.
Qed.

Lemma sql_get_store_new r t :
  ~ In (r_id r) (map r_id t) -> sql_get (store_row r t) (r_id r) = Some r.
Proof.
  unfold sql_get. induction t as [|r' t IH]; intros H; cbn [store_row find].
  - now rewrite Z.eqb_refl.
  - assert (Hne : r_id r' <> r_id r) by (intros E; apply H; now left).
    destruct (r_id r <? r_id r'); cbn [find].
    + now rewrite Z.eqb_refl.
    + destruct (Z.eqb_spec (r_id r') (r_id r)); [contradiction|].
      apply IH. intros Hin. apply H. now right.
Qed.

Lemma sql_get_store_other r t (k : Z) :
  r_id r <> k -> sql_get (store_row r t) k = sql_get t k.
Proof.
  unfold sql_get. intros Hne. induction t as [|r' t IH]; cbn [store_row find].
  - destruct (Z.eqb_spec (r_id r) k); [contradiction | reflexivity].
  - destruct (r_id r <? r_id r'); cbn [find].
    + destruct (Z.eqb_spec (r_id r) k); [contradiction | reflexivity].
    + now rewrite IH.
Qed.

Lemma sql_get_app_skip t (u : Table) (k : Z) :
  Forall (fun r => r_id r <> k) t -> sql_get (t ++ u) k = sql_get u k.
Proof.
  induction t as [|r t IH]; intros H; [reflexivity|].
  inversion H as [|? ? Hr Ht]; subst. unfold sql_get in *. simpl.
  destruct (Z.eqb_spec (r_id r) k); [contradiction | now apply IH].
Qed.

(** ** Rows in rowid order *)

Lemma StronglySorted_app (l1 l2 : list Z) :
  StronglySorted Z.lt l1 -> StronglySorted Z.lt l2 ->
  (forall x y, In x l1 -> In y l2 -> x < y) ->
  StronglySorted Z.lt (l1 ++ l2).
Proof.
  induction l1 as [|a l1 IH]; intros H1 H2 H; [exact H2|].
  apply StronglySorted_inv in H1 as [H1 Ha]. simpl. constructor.
  - apply IH; [assumption | assumption | intros; apply H; [now right | assumption]].
  - apply Forall_app; split; [exact Ha|].
    apply Forall_forall. intros y Hy. apply H; [now left | exact Hy].
Qed.

(** A row with an unused rowid goes to its place: the order is kept. *)
Lemma wf_store_row r t :
  wf_table t -> ~ In (r_id r) (map r_id t) -> wf_table (store_row r t).
Proof.
  unfold wf_table. induction t as [|r' t IH]; intros Hwf Hnew; cbn [store_row].
  - repeat constructor.
  - cbn [map] in Hwf. pose proof Hwf as Hwf'.
    apply StronglySorted_inv in Hwf as [Ht Hr'].
    assert (Hne : r_id r' <> r_id r) by (intros E; apply Hnew; now left).
    destruct (Z.ltb_spec (r_id r) (r_id r')).
    + cbn [map]. constructor; [exact Hwf'|]. constructor; [assumption|].
      eapply Forall_impl; [|exact Hr']. cbn; intros; lia.
    + cbn [map]. constructor.
      * apply IH; [exact Ht|]. intros Hin. apply Hnew. now right.
      * apply Forall_forall. intros k Hk. apply store_row_ids in Hk as [-> | Hk].
        -- lia.
        -- rewrite Forall_forall in Hr'. now apply Hr'.
Qed.

Lemma wf_number_rows i vs : wf_table (number_rows i vs).
Proof.
  unfold wf_table. revert i; induction vs as [|v vs IH]; intros i; simpl;
    constructor; [apply IH|].
  rewrite Forall_map. eapply Forall_impl; [|apply (number_rows_range (i + 1) vs)].
  simpl; intros; lia.
Qed.

(** ** INSERTs in sequence *)

Lemma insert_all_app t vs ws :
  insert_all t (vs ++ ws) =
  match insert_all t vs with
  | inl e => inl e
  | inr (t1, rows) =>
      match insert_all t1 ws with
      | inl e => inl e
      | inr (t2, rows') => inr (t2, rows ++ rows')
      end
  end.
Proof.
  revert t; induction vs as [|v vs IH]; intros t; cbn [app insert_all].
  - destruct (insert_all t ws) as [e|[t2 rows']]; reflexivity.
  - destruct (sql_insert t v) as [e|[t1 r]]; [reflexivity|].
    rewrite IH. destruct (insert_all t1 vs) as [e|[t2 rows]]; [reflexivity|].
    destruct (insert_all t2 ws) as [e|[t3 rows']]; reflexivity.
Qed.

(** What the INSERTs leave, whatever rowids SQLite allocates: the old rows
    and one new row per value, holding the REAL of the value under a rowid
    that was not in use; every row can be found by its rowid; the rowid
    order is kept. *)
Lemma insert_all_inv t vs (t' : Table) (rows : list row) :
  insert_all t vs = inr (t', rows) ->
  map r_level rows = map as_real vs /\
  Forall (fun v => is_null v = false) vs /\
  Permutation t' (t ++ rows) /\
  Forall (fun r => ~ In (r_id r) (map r_id t)) rows /\
  (forall k x, sql_get t k = Some x -> sql_get t' k = Some x) /\
  (forall r, In r rows -> sql_get t' (r_id r) = Some r) /\
  (wf_table t -> wf_table t').
Proof.
  revert t t' rows; induction vs as [|v vs IH]; intros t t' rows H;
    cbn [insert_all] in H.
  - injection H as <- <-. rewrite app_nil_r. repeat split; auto.
    intros r [].
  - destruct (sql_insert t v) as [e|[t1 r]] eqn:E; [discriminate|].
    destruct (insert_all t1 vs) as [e|[t2 rows']] eqn:E'; [discriminate|].
    injection H as <- <-.
    apply sql_insert_inv in E as (-> & Hlevel & Hok & Hnew).
    destruct (IH _ _ _ E') as (Hl & Hoks & Hperm & Hfresh & Hkeep & Hfind & Hwf).
    split; [cbn [map]; now rewrite Hlevel, Hl|].
    split; [now constructor|].
    split.
    { transitivity (store_row r t ++ rows'); [exact Hperm|].
      transitivity ((r :: t) ++ rows');
        [apply Permutation_app_tail, store_row_perm|].
      cbn [app]. apply Permutation_middle. }
    split.
    { constructor; [exact Hnew|].
      eapply Forall_impl; [|exact Hfresh]. cbn. intros r' Hr' Hin.
      apply Hr'. apply store_row_ids. now right. }
    split.
    { intros k x Hk. apply Hkeep. rewrite sql_get_store_other; [exact Hk|].
      intros <-. apply Hnew. exact (sql_get_in _ _ _ Hk). }
    split.
    { intros r' [<- | Hin].
      - apply Hkeep. now apply sql_get_store_new.
      - now apply Hfind. }
    intros Hwft. apply Hwf. now apply wf_store_row.
Qed.

(** Below the ceiling the rows are appended under consecutive rowids, and
    the only error is the refusal of a value. *)
Lemma insert_all_room t vs :
  has_room t (List.length vs) ->
  insert_all t vs =
  if forallb (fun v => negb (is_null v)) vs
  then inr (t ++ number_rows (next_rowid t) (map as_real vs),
            number_rows (next_rowid t) (map as_real vs))
  else inl IntegrityError.
Proof.
  unfold has_room. revert t; induction vs as [|v vs IH]; intros t Hroom.
  - cbn. now rewrite app_nil_r.
  - cbn [List.length] in Hroom. cbn [insert_all forallb map number_rows].
    rewrite sql_insert_room by lia.
    destruct (is_null v); [reflexivity|]. cbn [negb andb].
    assert (Hnext : next_rowid (t ++ [mkRow (next_rowid t) (as_real v)]) =
                    next_rowid t + 1)
      by (rewrite next_rowid_snoc; [reflexivity | apply next_rowid_fresh]).
    rewrite IH by (rewrite Hnext; lia). rewrite Hnext.
    destruct (forallb _ vs); [|reflexivity].
    now rewrite <- app_assoc.
Qed.

(** ** The heap of instances *)

Lemma nth_error_at {A : Type} (pre : list A) (x : A) (post : list A) :
  nth_error (pre ++ x :: post) (List.length pre) = Some x.
Proof. induction pre as [|y pre IH]; simpl; [reflexivity | exact IH]. Qed.

Lemma update_at {A : Type} (pre : list A) (x y : A) (post : list A) :
  update (pre ++ x :: post) (List.length pre) y = pre ++ y :: post.
Proof. induction pre as [|z pre IH]; simpl; [reflexivity | now rewrite IH]. Qed.

Lemma create_all (es : list WaterLevel) (s : State) :
  mapM (fun entry => new_WaterLevelModel (level entry)) es s =
  (Return (seq (List.length (heap s)) (List.length es)),
   mkState (db_table s) (heap s ++ map transient (map level es))
           (session_new s) (lib_calls s)).
Proof.
  revert s; induction es as [|e es IH]; intros s.
  - simpl. unfold ret. rewrite app_nil_r. now destruct s.
  - cbn [mapM]. unfold bind at 1. unfold new_WaterLevelModel at 1.
    unfold bind at 1. rewrite IH. cbn [heap db_table session_new lib_calls].
    unfold ret. rewrite length_app, Nat.add_1_r. cbn [List.length map seq].
    now rewrite <- app_assoc.
Qed.

Lemma flush_pending t (pre : list WaterLevelModel) vs (post : list WaterLevelModel) :
  flush t (pre ++ map transient vs ++ post)
        (seq (List.length pre) (List.length vs)) =
  match insert_all t vs with
  | inl e => inl e
  | inr (t', rows) => inr (t', pre ++ map flushed (combine rows vs) ++ post)
  end.
Proof.
  revert t pre; induction vs as [|v vs IH]; intros t pre.
  - reflexivity.
  - cbn [map List.length seq flush app insert_all].
    rewrite nth_error_at. cbn [m_level transient].
    destruct (sql_insert t v) as [e|[t1 r]]; [reflexivity|].
    rewrite update_at.
    change (pre ++ ?x :: ?rest) with (pre ++ [x] ++ rest).
    rewrite app_assoc.
    replace (S (List.length pre))
      with (List.length (pre ++ [mkWaterLevelModel (Some (r_id r)) v true]))
      by (rewrite length_app; simpl; lia).
    rewrite IH. destruct (insert_all t1 vs) as [e|[t2 rows]]; [reflexivity|].
    cbn [combine map flushed fst snd]. now rewrite <- !app_assoc.
Qed.

Lemma read_back t (pre : list WaterLevelModel) (rows : list row) vs
      (post : list WaterLevelModel) (sn : list ref) (lc : list LibCall) :
  List.length vs = List.length rows ->
  (forall r, In r rows -> sql_get t (r_id r) = Some r) ->
  mapM (fun entry => get_level entry)
       (seq (List.length pre) (List.length rows))
       (mkState t (pre ++ map flushed (combine rows vs) ++ post) sn lc) =
  (Return (map r_level rows),
   mkState t (pre ++ map of_row rows ++ post) sn lc).
Proof.
  revert pre vs; induction rows as [|r rows IH]; intros pre vs Hlen Hget;
    [destruct vs; [reflexivity | discriminate Hlen]|].
  destruct vs as [|v vs]; [discriminate Hlen|]. injection Hlen as Hlen.
  cbn [map List.length seq mapM app combine]. unfold bind at 1.
  unfold get_level at 1. cbn [heap db_table session_new lib_calls].
  rewrite nth_error_at. cbn [flushed m_expired m_id fst snd].
  rewrite (Hget r) by now left. rewrite update_at.
  unfold bind at 1.
  change (pre ++ ?x :: ?rest) with (pre ++ [x] ++ rest).
  rewrite app_assoc.
  replace (S (List.length pre)) with (List.length (pre ++ [of_row r]))
    by (rewrite length_app; simpl; lia).
  rewrite (IH _ vs Hlen) by (intros; apply Hget; now right).
  unfold ret. now rewrite <- !app_assoc.
Qed.

(** ** The two POST handlers, run *)

Lemma add_multiple_water_levels_run (data : WaterLevels) t :
  get_db (add_multiple_water_levels data) t =
  match insert_all t (map level (levels data)) with
  | inl e => (Raise e, t, [])
  | inr (t', rows) =>
      (Return (VDict [("message", VStr "Water levels added successfully");
                      ("levels", VList (map VFloat (map r_level rows)))]),
       t', [])
  end.
Proof.
  unfold get_db, add_multiple_water_levels.
  unfold bind at 1. rewrite create_all. cbn [heap db_table session_new lib_calls app].
  unfold bind at 1. unfold db_add_all at 1.
  cbn [heap db_table session_new lib_calls app List.length].
  unfold bind at 1. unfold db_commit at 1.
  cbn [heap db_table session_new lib_calls].
  pose proof (flush_pending t [] (map level (levels data)) []) as Hf.
  cbn [app List.length] in Hf. rewrite !app_nil_r, !length_map in Hf.
  rewrite Hf. clear Hf.
  destruct (insert_all t (map level (levels data))) as [e|[t' rows]] eqn:E;
    [reflexivity|].
  rewrite app_nil_r.
  destruct (insert_all_inv _ _ _ _ E) as (Hl & _ & _ & _ & _ & Hfind & _).
  assert (Hlen : List.length (map level (levels data)) = List.length rows).
  { rewrite <- (length_map as_real), <- Hl. now rewrite length_map. }
  unfold bind at 1.
  pose proof (read_back t' [] rows (map level (levels data)) [] [] [] Hlen Hfind)
    as Hr.
  cbn [app List.length] in Hr. rewrite !app_nil_r in Hr.
  rewrite length_map in Hlen. rewrite Hlen, Hr. reflexivity.
Qed.

Lemma add_water_level_run (data : WaterLevel) t :
  get_db (add_water_level data) t =
  match sql_insert t (level data) with
  | inl e => (Raise e, t, [])
  | inr (t', r) =>
      (Return (VDict [("message", VStr "Water level added successfully");
                      ("level", VFloat (r_level r))]),
       t', [])
  end.
Proof.
  unfold get_db, add_water_level, bind, new_WaterLevelModel, db_add, db_commit.
  cbn [heap db_table session_new lib_calls app List.length flush nth_error m_level].
  destruct (sql_insert t (level data)) as [e|[t' r]] eqn:E; [reflexivity|].
  apply sql_insert_inv in E as (-> & _ & _ & Hnew).
  cbn [update r_id]. unfold db_refresh.
  cbn [heap db_table session_new lib_calls nth_error m_id].
  rewrite (sql_get_store_new r t Hnew).
  cbn [update]. unfold get_level.
  cbn [heap db_table session_new lib_calls nth_error of_row m_expired m_level r_level].
  reflexivity.
Qed.

(** Below the ceiling. *)
Lemma add_multiple_water_levels_room (data : WaterLevels) t :
  has_room t (List.length (levels data)) ->
  get_db (add_multiple_water_levels data) t =
  if forallb (fun v => negb (is_null v)) (map level (levels data))
  then (Return (VDict [("message", VStr "Water levels added successfully");
                       ("levels",
                        VList (map VFloat (map as_real (map level (levels data)))))]),
        t ++ number_rows (next_rowid t) (map as_real (map level (levels data))),
        [])
  else (Raise IntegrityError, t, []).
Proof.
  intros H. rewrite add_multiple_water_levels_run.
  rewrite insert_all_room by (now rewrite length_map).
  destruct (forallb _ _); [|reflexivity]. now rewrite number_rows_levels.
Qed.

Lemma add_water_level_room (data : WaterLevel) t :
  has_room t 1 ->
  get_db (add_water_level data) t =
  if is_null (level data)
  then (Raise IntegrityError, t, [])
  else (Return (VDict [("message", VStr "Water level added successfully");
                       ("level", VFloat (as_real (level data)))]),
        t ++ [mkRow (next_rowid t) (as_real (level data))],
        []).
Proof.
  unfold has_room. intros H. rewrite add_water_level_run.
  rewrite sql_insert_room by lia.
  destruct (is_null (level data)); reflexivity.
Qed.

(** ** The GET handlers, run *)

(** The three places where the model library may raise. *)
Ltac library_cases :=
  match goal with
  | |- context [ARIMA ?d ?o] =>
      let model := fresh "model" in
      let model_fit := fresh "model_fit" in
      let e := fresh "e" in
      destruct (ARIMA d o) as [e|model];
      [|destruct (fit model) as [e|model_fit];
        [|match goal with
          | |- context [forecast model_fit ?n] => destruct (forecast model_fit n)
          end]]
  end.

Lemma untuple t (s : State) :
  mapM (fun level => index0 level) (map (fun r => [r_level r]) t) s =
  (Return (map r_level t), s).
Proof.
  induction t as [|r t IH]; [reflexivity|].
  cbn [map mapM]. unfold bind at 1. cbn [index0]. unfold ret at 1.
  unfold bind at 1. now rewrite IH.
Qed.

Lemma load_water_levels_run (s : State) :
  load_water_levels s = (Return (map r_level (db_table s)), s).
Proof.
  unfold load_water_levels, bind, query_level_all. apply untuple.
Qed.

Lemma place_desc_snoc r (l : list row) :
  Forall (fun r' => r_id r < r_id r') l -> place_desc r l = l ++ [r].
Proof.
  induction l as [|r' l IH]; intros H; [reflexivity|].
  inversion H as [|? ? Hr' Hl]; subst. simpl.
  destruct (Z.ltb_spec (r_id r') (r_id r)); [lia | now rewrite IH].
Qed.

(** On a table in rowid order, ORDER BY id DESC is the table read backwards. *)
Lemma order_by_id_desc_rev t : wf_table t -> order_by_id_desc t = rev t.
Proof.
  unfold wf_table. induction t as [|r t IH]; intros H; [reflexivity|].
  simpl in H. apply StronglySorted_inv in H as [Ht Hr].
  cbn [order_by_id_desc fold_right rev].
  change (fold_right place_desc [] t) with (order_by_id_desc t).
  rewrite (IH Ht). apply place_desc_snoc.
  apply Forall_rev. rewrite Forall_map in Hr. exact Hr.
Qed.

Lemma order_by_id_desc_nil t : order_by_id_desc t = [] -> t = [].
Proof.
  destruct t as [|r t]; [reflexivity|].
  cbn [order_by_id_desc fold_right].
  destruct (fold_right place_desc [] t) as [|r' l]; simpl; [discriminate|].
  destruct (r_id r' <? r_id r); discriminate.
Qed.

Lemma get_latest_water_level_run t :
  get_db get_latest_water_level t =
  match hd_error (order_by_id_desc t) with
  | None => (Raise not_found, t, [])
  | Some r => (Return (VDict [("latest_level", VFloat (r_level r))]), t, [])
  end.
Proof.
  unfold get_db, get_latest_water_level, bind, query_order_by_id_desc_first.
  cbn [db_table]. destruct (hd_error (order_by_id_desc t)); reflexivity.
Qed.

Lemma get_all_water_levels_run t :
  get_db get_all_water_levels t =
  match t with
  | [] => (Raise not_found, t, [])
  | _ :: _ => (Return (VDict [("all_levels", VList (map VFloat (map r_level t)))]), t, [])
  end.
Proof.
  unfold get_db, get_all_water_levels, bind, query_all. cbn [db_table].
  destruct t as [|r t]; [reflexivity|].
  cbn [map]. unfold ret. rewrite !map_map. reflexivity.
Qed.

Lemma forecast_water_levels_run (data : list Float) (days_ahead : Z) (s : State) :
  forecast_water_levels data days_ahead s =
  let log := fun calls =>
    mkState (db_table s) (heap s) (session_new s) (lib_calls s ++ calls) in
  match ARIMA data (5, 1, 0) with
  | inl e => (Raise (LibError e), log [Call_ARIMA data (5, 1, 0)])
  | inr model =>
      match fit model with
      | inl e => (Raise (LibError e), log [Call_ARIMA data (5, 1, 0); Call_fit model])
      | inr model_fit =>
          let calls := [Call_ARIMA data (5, 1, 0); Call_fit model;
                        Call_forecast model_fit days_ahead] in
          match forecast model_fit days_ahead with
          | inl e => (Raise (LibError e), log calls)
          | inr p => (Return p, log calls)
          end
      end
  end.
Proof.
  unfold forecast_water_levels, bind, call_ARIMA, call_fit, call_forecast, lib_call.
  cbn zeta. destruct (ARIMA data (5, 1, 0)) as [e|model]; [reflexivity|].
  cbn [db_table heap session_new lib_calls].
  destruct (fit model) as [e|model_fit]; rewrite <- ?app_assoc; [reflexivity|].
  cbn [db_table heap session_new lib_calls].
  destruct (forecast model_fit days_ahead); rewrite <- ?app_assoc; reflexivity.
Qed.

Lemma forecast_next_15_days_run t :
  get_db forecast_next_15_days t =
  let data := map r_level t in
  if len data <? 10 then (Return insufficient_data, t, [])
  else
    match ARIMA data (5, 1, 0) with
    | inl e => (Raise (LibError e), t, [Call_ARIMA data (5, 1, 0)])
    | inr model =>
        match fit model with
        | inl e => (Raise (LibError e), t, [Call_ARIMA data (5, 1, 0); Call_fit model])
        | inr model_fit =>
            let calls := [Call_ARIMA data (5, 1, 0); Call_fit model;
                          Call_forecast model_fit 15] in
            match forecast model_fit 15 with
            | inl e => (Raise (LibError e), t, calls)
            | inr p =>
                (Return (VDict [("15_day_forecast", VDict (forecast_dict p))]), t, calls)
            end
        end
    end.
Proof.
  unfold get_db, forecast_next_15_days. unfold bind at 1.
  rewrite load_water_levels_run. cbn [db_table]. cbn zeta.
  destruct (len (map r_level t) <? 10); [reflexivity|].
  unfold bind. rewrite forecast_water_levels_run.
  cbn zeta. cbn [db_table heap session_new lib_calls app].
  library_cases; reflexivity.
Qed.

(** ** Sequences of insertions, run *)

Lemma accepted_all vs :
  Forall (fun v => is_null v = false) vs ->
  forallb (fun v => negb (is_null v)) vs = true.
Proof.
  induction 1 as [|v vs Hv _ IH]; [reflexivity|].
  simpl. now rewrite Hv, IH.
Qed.

(** What a request leaves, whatever rowids SQLite allocates. *)
Lemma serve_insertion_run t (q : insertion) :
  serve_insertion t q =
  match insert_all t (inserted_levels q) with
  | inl _ => t
  | inr (t', _) => t'
  end.
Proof.
  destruct q as [data|data]; cbn [serve_insertion inserted_levels insert_all].
  - rewrite add_water_level_run.
    destruct (sql_insert t (level data)) as [e|[t' r]]; reflexivity.
  - rewrite add_multiple_water_levels_run.
    destruct (insert_all t (map level (levels data))) as [e|[t' rows]]; reflexivity.
Qed.

Lemma serve_insertion_stored t (q : insertion) :
  has_room t (List.length (inserted_levels q)) ->
  serve_insertion t q = t ++ number_rows (next_rowid t) (stored_levels q).
Proof.
  intros H. rewrite serve_insertion_run, insert_all_room by exact H.
  unfold stored_levels. destruct (forallb _ _); [reflexivity|].
  cbn. now rewrite app_nil_r.
Qed.

Lemma stored_levels_length (q : insertion) :
  (List.length (stored_levels q) <= List.length (inserted_levels q))%nat.
Proof.
  unfold stored_levels. destruct (forallb _ _); [rewrite length_map|]; cbn; lia.
Qed.

Lemma has_room_le t (n m : nat) : (n <= m)%nat -> has_room t m -> has_room t n.
Proof. unfold has_room. lia. Qed.

Lemma has_room_after t (n m : nat) vs :
  List.length vs = n ->
  has_room t (n + m) ->
  has_room (t ++ number_rows (next_rowid t) vs) m.
Proof.
  unfold has_room. intros <- H. rewrite next_rowid_number_rows. unfold len. lia.
Qed.

(** Requests in sequence, with room for all the values they post. *)
Lemma serve_requests_stored (qs : list insertion) t :
  has_room t (List.length (List.concat (map inserted_levels qs))) ->
  fold_left serve_insertion qs t =
  t ++ number_rows (next_rowid t) (List.concat (map stored_levels qs)).
Proof.
  revert t; induction qs as [|q qs IH]; intros t H.
  - cbn. now rewrite app_nil_r.
  - cbn [fold_left map List.concat] in *. rewrite length_app in H.
    rewrite serve_insertion_stored by (eapply has_room_le; [|exact H]; lia).
    rewrite IH.
    + rewrite next_rowid_number_rows, number_rows_app. now rewrite app_assoc.
    + apply (has_room_after t (List.length (stored_levels q))); [reflexivity|].
      eapply has_room_le; [|exact H].
      pose proof (stored_levels_length q). lia.
Qed.

Lemma stored_levels_accepted (q : insertion) :
  Forall (fun v => is_null v = false) (inserted_levels q) ->
  stored_levels q = map as_real (inserted_levels q).
Proof.
  intros H. unfold stored_levels. now rewrite (accepted_all _ H).
Qed.

Lemma serve_insertions_eq (qs : list insertion) t :
  has_room t (List.length (List.concat (map inserted_levels qs))) ->
  Forall (fun v => is_null v = false) (List.concat (map inserted_levels qs)) ->
  fold_left serve_insertion qs t =
  t ++ number_rows (next_rowid t)
                   (map as_real (List.concat (map inserted_levels qs))).
Proof.
  intros Hroom H. rewrite serve_requests_stored by exact Hroom. do 2 f_equal.
  clear Hroom. induction qs as [|q qs IH]; [reflexivity|].
  cbn [map List.concat] in *. apply Forall_app in H as [Hq Hqs].
  rewrite map_app, (stored_levels_accepted q Hq), (IH Hqs). reflexivity.
Qed.

(** The invariant of the table: a request, accepted or not, keeps the rows
    in ascending rowid order. *)
Lemma wf_table_inserted t vs :
  wf_table t -> wf_table (t ++ number_rows (next_rowid t) vs).
Proof.
  unfold wf_table. intros H. rewrite map_app. apply StronglySorted_app.
  - exact H.
  - apply wf_number_rows.
  - intros x y Hx Hy. apply in_map_iff in Hx as [rx [<- Hx]].
    apply in_map_iff in Hy as [ry [<- Hy]].
    pose proof (next_rowid_fresh t) as Hf. rewrite Forall_forall in Hf.
    pose proof (number_rows_range (next_rowid t) vs) as Hr.
    rewrite Forall_forall in Hr. specialize (Hf _ Hx). specialize (Hr _ Hy).
    simpl in *. lia.
Qed.

Lemma wf_table_served t (q : insertion) :
  wf_table t -> wf_table (serve_insertion t q).
Proof.
  intros H. rewrite serve_insertion_run.
  destruct (insert_all t (inserted_levels q)) as [e|[t' rows]] eqn:E; [exact H|].
  now apply (insert_all_inv _ _ _ _ E).
Qed.

(** ** The forecast endpoint *)

(** C1: with fewer than 10 stored readings the forecast request makes no
    call into the model library (no model is built, fitted or asked for a
    forecast) and returns, as a normal result sent with status 200 and not
    as an exception, the payload whose only field is the explanatory
    message; the table is left as it was. *)
Theorem forecast_insufficient_data t :
  len t < 10 ->
  response (get_db forecast_next_15_days t) = Return insufficient_data /\
  http_status (response (get_db forecast_next_15_days t)) = 200 /\
  calls_made (get_db forecast_next_15_days t) = [] /\
  table_after (get_db forecast_next_15_days t) = t.
Proof.
  intros H. rewrite forecast_next_15_days_run. cbn zeta.
  unfold len in *. rewrite length_map.
  destruct (Z.ltb_spec (Z.of_nat (List.length t)) 10); [|lia].
  repeat split.
Qed.

Lemma forecast_dict_15 (p : list Float) :
  List.length p = 15%nat ->
  keys (forecast_dict p) = day_labels /\ map snd (forecast_dict p) = map VFloat p.
Proof.
  intros H.
  do 15 (destruct p as [|? p]; [discriminate H|]).
  destruct p; [|discriminate H].
  split; reflexivity.
Qed.

Lemma json_ok_floats (l : list Float) :
  forallb json_ok (map VFloat l) = forallb isfinite l.
Proof. induction l as [|x l IH]; [reflexivity|]. cbn. now rewrite IH. Qed.

Lemma json_ok_values (d : list (string * value)) :
  forallb (fun kv => json_ok (snd kv)) d = forallb json_ok (map snd d).
Proof. induction d as [|kv d IH]; [reflexivity|]. cbn. now rewrite IH. Qed.

(** C2, as amended: with at least 10 stored readings, whenever the model is
    built and fitted on the stored series and its 15 step forecast returns,
    with as many values as steps were asked, the forecast request returns a
    dict of exactly 15 numbers whose keys are day_1, day_2, ..., day_15 in
    this order, the i-th key holding the i-th prediction; it is answered
    with 200 when the predictions are finite, and with 500 when one is not,
    the payload having no JSON encoding. *)
Theorem forecast_returns_15_day_labels t
    (model : ARIMAModel) (model_fit : ARIMAResults) (p : list Float) :
  10 <= len t ->
  forecast_has_steps lib ->
  ARIMA (map r_level t) (5, 1, 0) = inr model ->
  fit model = inr model_fit ->
  forecast model_fit 15 = inr p ->
  exists d,
    response (get_db forecast_next_15_days t) =
      Return (VDict [("15_day_forecast", VDict d)]) /\
    keys d = day_labels /\
    map snd d = map VFloat p /\
    List.length d = 15%nat /\
    http_status (response (get_db forecast_next_15_days t)) =
      (if forallb isfinite p then 200 else 500).
Proof.
  intros Hlen Hsteps HA Hf Hp.
  rewrite forecast_next_15_days_run. cbn zeta.
  unfold len in *. rewrite length_map.
  destruct (Z.ltb_spec (Z.of_nat (List.length t)) 10); [lia|].
  rewrite HA, Hf, Hp. exists (forecast_dict p).
  assert (Hp15 : List.length p = 15%nat)
    by (apply Hsteps in Hp; unfold len in Hp; lia).
  destruct (forecast_dict_15 p Hp15) as [Hk Hv].
  split; [reflexivity|]. split; [exact Hk|]. split; [exact Hv|].
  split; [rewrite <- (length_map snd), Hv, length_map; exact Hp15|].
  unfold response. cbn [fst http_status json_ok forallb snd].
  rewrite !andb_true_r, json_ok_values, Hv.
  now rewrite json_ok_floats.
Qed.

(** C3: every run of the forecast engine builds the model on the supplied
    history with order (5, 1, 0) and fits it: the construction is the first
    library call it makes, it makes no model with another order or on
    another series, and, the construction having returned a model, its
    second call fits that model, the only model it fits.  The same holds of
    the forecast request on at least 10 readings: it builds the model on
    the stored levels with order (5, 1, 0) and fits it. *)
Theorem arima_order_is_5_1_0 (data : list Float) (days_ahead : Z) (s : State) :
  (exists new,
      lib_calls (snd (forecast_water_levels data days_ahead s)) = lib_calls s ++ new /\
      hd_error new = Some (Call_ARIMA data (5, 1, 0)) /\
      (forall endog order,
          In (Call_ARIMA endog order) new -> endog = data /\ order = (5, 1, 0)) /\
      (forall model, In (Call_fit model) new -> ARIMA data (5, 1, 0) = inr model) /\
      (forall model,
          ARIMA data (5, 1, 0) = inr model ->
          nth_error new 1 = Some (Call_fit model) /\
          forall n : nat, (2 <= n)%nat ->
                          forall endog order model',
                            nth_error new n <> Some (Call_ARIMA endog order) /\
                            nth_error new n <> Some (Call_fit model'))) /\
  (forall t endog order,
      In (Call_ARIMA endog order) (calls_made (get_db forecast_next_15_days t)) ->
      endog = map r_level t /\ order = (5, 1, 0)) /\
  (forall t model,
      10 <= len t ->
      ARIMA (map r_level t) (5, 1, 0) = inr model ->
      nth_error (calls_made (get_db forecast_next_15_days t)) 0 =
        Some (Call_ARIMA (map r_level t) (5, 1, 0)) /\
      nth_error (calls_made (get_db forecast_next_15_days t)) 1 =
        Some (Call_fit model)).
Proof.
  split; [|split].
  - rewrite forecast_water_levels_run. cbn zeta.
    destruct (ARIMA data (5, 1, 0)) as [e|model] eqn:HA;
      [|destruct (fit model) as [e|model_fit];
        [|destruct (forecast model_fit days_ahead)]];
      cbn [snd lib_calls]; eexists; (split; [reflexivity|]);
      (split; [reflexivity|]); (split; [|split]); intros;
      repeat match goal with
             | H : In _ (_ :: _) |- _ => destruct H as [H|H]
             | H : In _ [] |- _ => destruct H
             | H : inl _ = inr _ |- _ => discriminate H
             | H : inr _ = inr _ |- _ => injection H as <-
             | H : Call_ARIMA _ _ = Call_ARIMA _ _ |- _ => injection H as <- <-
             | H : Call_fit _ = Call_fit _ |- _ => injection H as <-
             | H : _ = _ |- _ => discriminate H
             end; auto;
      (split; [reflexivity|]);
      intros n Hn endog order model';
      (destruct n as [|[|[|[|n]]]]; [lia | lia | | |]);
      cbn; split; discriminate.
  - intros t endog order. rewrite forecast_next_15_days_run. cbn zeta.
    destruct (len (map r_level t) <? 10); [intros []|].
    library_cases;
      unfold calls_made; cbn [snd]; intros H;
      repeat match goal with
             | H : In _ (_ :: _) |- _ => destruct H as [H|H]
             | H : In _ [] |- _ => destruct H
             | H : _ = _ |- _ => first [discriminate H | injection H as <- <-]
             end; auto.
  - intros t model Hlen HA. rewrite forecast_next_15_days_run. cbn zeta.
    unfold len in *. rewrite length_map.
    destruct (Z.ltb_spec (Z.of_nat (List.length t)) 10); [lia|].
    rewrite HA. destruct (fit model) as [e|model_fit];
      [|destruct (forecast model_fit 15)]; split; reflexivity.
Qed.

(** C7: with at least 10 stored readings, an exception raised while the
    model is built, fitted or asked for its forecast leaves the forecast
    request as that same exception, which is sent as a 500: the request
    returns no payload at all, in particular not the insufficient-data
    payload, and the exception is not the 404 of the read endpoints.  The
    engine itself raises it, in any state, and the table is left as it
    was. *)
Theorem model_fit_error_propagates t (e : lib_exn) :
  10 <= len t ->
  (ARIMA (map r_level t) (5, 1, 0) = inl e \/
   (exists model,
       ARIMA (map r_level t) (5, 1, 0) = inr model /\ fit model = inl e) \/
   (exists model model_fit,
       ARIMA (map r_level t) (5, 1, 0) = inr model /\ fit model = inr model_fit /\
       forecast model_fit 15 = inl e)) ->
  response (get_db forecast_next_15_days t) = Raise (LibError e) /\
  http_status (response (get_db forecast_next_15_days t)) = 500 /\
  (forall payload : value,
      response (get_db forecast_next_15_days t) <> Return payload) /\
  response (get_db forecast_next_15_days t) <> Return insufficient_data /\
  response (get_db forecast_next_15_days t) <> Raise not_found /\
  (forall s, fst (forecast_water_levels (map r_level t) 15 s) = Raise (LibError e)) /\
  table_after (get_db forecast_next_15_days t) = t.
Proof.
  intros Hlen Hfail.
  assert (Hrun : get_db forecast_next_15_days t =
                 (Raise (LibError e), t, calls_made (get_db forecast_next_15_days t))).
  { rewrite forecast_next_15_days_run. cbn zeta.
    unfold len in *. rewrite length_map.
    destruct (Z.ltb_spec (Z.of_nat (List.length t)) 10); [lia|].
    destruct Hfail as [HA | [(model & HA & Hf) | (model & model_fit & HA & Hf & Hp)]];
      rewrite HA, ?Hf, ?Hp; reflexivity. }
  rewrite Hrun. unfold response, table_after. cbn [fst snd].
  repeat split; try discriminate.
  intros s. rewrite forecast_water_levels_run. cbn zeta.
  destruct Hfail as [HA | [(model & HA & Hf) | (model & model_fit & HA & Hf & Hp)]];
    rewrite HA, ?Hf, ?Hp; reflexivity.
Qed.

(** C9: each of the three GET requests leaves the table as it found it,
    whatever it answers. *)
Theorem get_endpoints_leave_store_unchanged t :
  table_after (get_db get_latest_water_level t) = t /\
  table_after (get_db get_all_water_levels t) = t /\
  table_after (get_db forecast_next_15_days t) = t.
Proof.
  rewrite get_latest_water_level_run, get_all_water_levels_run,
    forecast_next_15_days_run.
  cbn zeta. repeat split.
  - destruct (hd_error (order_by_id_desc t)); reflexivity.
  - destruct t; reflexivity.
  - destruct (len (map r_level t) <? 10); [reflexivity|].
    library_cases; reflexivity.
Qed.

(** ** The reading store *)

(** C4: on a table in rowid order, the latest request and the all request
    each raise the 404 "No water level data available" exactly when the
    table is empty; when it is not, both return, and the level the latest
    request returns is the last of the levels the all request returns. *)
Theorem latest_is_last_of_all t :
  wf_table t ->
  (response (get_db get_latest_water_level t) = Raise not_found <-> t = []) /\
  (response (get_db get_all_water_levels t) = Raise not_found <-> t = []) /\
  (t <> [] ->
   exists vs v,
     response (get_db get_all_water_levels t) =
       Return (VDict [("all_levels", VList (map VFloat (vs ++ [v])))]) /\
     response (get_db get_latest_water_level t) =
       Return (VDict [("latest_level", VFloat v)])).
Proof.
  intros Hwf.
  rewrite get_latest_water_level_run, get_all_water_levels_run.
  rewrite (order_by_id_desc_rev t Hwf).
  destruct t as [|r0 t0 _] using rev_ind.
  - cbn. split; [|split].
    + split; reflexivity.
    + split; reflexivity.
    + intros H. now elim H.
  - rewrite rev_app_distr. cbn [rev app hd_error].
    assert (Hne : t0 ++ [r0] <> []) by (now destruct t0).
    destruct (t0 ++ [r0]) as [|r1 t1] eqn:E; [now elim Hne|].
    unfold response; cbn [fst]. split; [|split].
    + split; discriminate.
    + split; discriminate.
    + intros _. exists (map r_level t0), (r_level r0).
      rewrite <- E, map_app. split; reflexivity.
Qed.

(** C5, as amended: after any sequence of accepted insertions into the
    empty table, N values in all (N at most the largest rowid), the stored
    levels are exactly those N values as the REAL column holds them, in
    insertion order, and the stored ids are 1, 2, ..., N, strictly
    increasing; when N >= 1 the all request returns exactly those N stored
    values in that order, and when N = 0 it raises the 404 instead of
    returning an empty list. *)
Theorem insertions_are_kept_in_order (qs : list insertion) :
  Forall (fun v => is_null v = false) (List.concat (map inserted_levels qs)) ->
  Z.of_nat (List.length (List.concat (map inserted_levels qs))) <= MAX_ROWID ->
  map r_level (fold_left serve_insertion qs []) =
    map as_real (List.concat (map inserted_levels qs)) /\
  map r_id (fold_left serve_insertion qs []) =
    count_from 1 (List.length (List.concat (map inserted_levels qs))) /\
  wf_table (fold_left serve_insertion qs []) /\
  (List.concat (map inserted_levels qs) <> [] ->
   response (get_db get_all_water_levels (fold_left serve_insertion qs [])) =
     Return (VDict [("all_levels",
                     VList (map VFloat
                                (map as_real (List.concat (map inserted_levels qs)))))])) /\
  (List.concat (map inserted_levels qs) = [] ->
   response (get_db get_all_water_levels (fold_left serve_insertion qs [])) =
     Raise not_found).
Proof.
  intros H Hroom.
  assert (Hr : has_room (@nil (@row Float))
                         (List.length (List.concat (map inserted_levels qs))))
    by (unfold has_room; change (next_rowid []) with 1; lia).
  rewrite (serve_insertions_eq qs [] Hr H).
  cbn [app]. change (next_rowid []) with 1.
  rewrite number_rows_levels, number_rows_ids, length_map, get_all_water_levels_run.
  repeat split.
  - apply wf_number_rows.
  - intros Hne. destruct (List.concat (map inserted_levels qs)) as [|v vs];
      [now elim Hne|].
    cbn [number_rows map]. unfold response; cbn [fst map].
    now rewrite number_rows_levels.
  - intros ->. reflexivity.
Qed.

(** C6: a batch insert stores every entry or none, on every table.  Either
    the request raises and the table is the one before the request, or it
    returns the levels it stored, which are the posted values as the REAL
    column holds them, in input order, and the table is the old rows and
    one new row per entry under a rowid that was not in use.  While the
    rowids fit below the ceiling, the new rows are appended in input order
    under the consecutive ids next, next+1, ..., and the request raises
    exactly when SQLite refuses one of the values. *)
Theorem batch_insert_all_or_nothing (data : WaterLevels) t :
  ((exists e,
       response (get_db (add_multiple_water_levels data) t) = Raise e /\
       table_after (get_db (add_multiple_water_levels data) t) = t)
   \/
   (exists rows,
       response (get_db (add_multiple_water_levels data) t) =
         Return (VDict [("message", VStr "Water levels added successfully");
                        ("levels", VList (map VFloat (map r_level rows)))]) /\
       map r_level rows = map as_real (map level (levels data)) /\
       Permutation (table_after (get_db (add_multiple_water_levels data) t))
                   (t ++ rows) /\
       Forall (fun r => ~ In (r_id r) (map r_id t)) rows)) /\
  (has_room t (List.length (levels data)) ->
   (forallb (fun v => negb (is_null v)) (map level (levels data)) = true /\
    exists rows,
      response (get_db (add_multiple_water_levels data) t) =
        Return (VDict [("message", VStr "Water levels added successfully");
                       ("levels",
                        VList (map VFloat (map as_real (map level (levels data)))))]) /\
      table_after (get_db (add_multiple_water_levels data) t) = t ++ rows /\
      map r_level rows = map as_real (map level (levels data)) /\
      map r_id rows = count_from (next_rowid t) (List.length (levels data)))
   \/
   (forallb (fun v => negb (is_null v)) (map level (levels data)) = false /\
    response (get_db (add_multiple_water_levels data) t) = Raise IntegrityError /\
    table_after (get_db (add_multiple_water_levels data) t) = t)).
Proof.
  split.
  - rewrite add_multiple_water_levels_run.
    destruct (insert_all t (map level (levels data))) as [e|[t' rows]] eqn:E.
    + left. exists e. split; reflexivity.
    + right. exists rows.
      destruct (insert_all_inv _ _ _ _ E) as (Hl & _ & Hperm & Hfresh & _).
      repeat split; assumption.
  - intros Hroom. rewrite (add_multiple_water_levels_room data t Hroom).
    destruct (forallb _ _); [left | right; repeat split].
    split; [reflexivity|].
    exists (number_rows (next_rowid t) (map as_real (map level (levels data)))).
    rewrite number_rows_levels, number_rows_ids, !length_map. repeat split.
Qed.

(** C10: a batch insert of no entries returns the success message with an
    empty list of levels, makes no library call and leaves the table as it
    was. *)
Theorem batch_insert_empty t :
  get_db (add_multiple_water_levels (mkWaterLevels [])) t =
  (Return (VDict [("message", VStr "Water levels added successfully");
                  ("levels", VList [])]),
   t, []).
Proof.
  rewrite add_multiple_water_levels_run. reflexivity.
Qed.

End Properties.

(** * The theorems at concrete inputs

    Levels are binary64 floats, SQLite is [Sample.sqlite3] and the model
    library is one of the stand-ins of [Sample]. *)

Lemma naive_has_steps : forecast_has_steps Sample.naive.
Proof.
  intros r steps p. cbn [forecast Sample.naive].
  destruct (Z.ltb_spec steps 0); [discriminate|].
  intros [= <-]. unfold len. rewrite repeat_length. lia.
Qed.

Lemma wf_table_of (vs : list float) : wf_table (Sample.table_of vs).
Proof. apply wf_number_rows. Qed.

Lemma forecast_insufficient_data_witness :
  len (Sample.table_of Sample.three) < 10 /\
  response (get_db (lib := Sample.naive) forecast_next_15_days
                   (Sample.table_of Sample.three)) = Return insufficient_data /\
  calls_made (get_db (lib := Sample.naive) forecast_next_15_days
                     (Sample.table_of Sample.three)) = [] /\
  table_after (get_db (lib := Sample.naive) forecast_next_15_days
                      (Sample.table_of Sample.three)) = Sample.table_of Sample.three.
Proof.
  split; [reflexivity|].
  destruct (forecast_insufficient_data (lib := Sample.naive)
              (Sample.table_of Sample.three)) as (Hresp & _ & Hcalls & Htable).
  - reflexivity.
  - repeat split; assumption.
Defined.

Lemma forecast_returns_15_day_labels_witness :
  10 <= len (Sample.table_of Sample.ten) /\
  forecast_has_steps Sample.naive /\
  exists d,
    response (get_db (lib := Sample.naive) forecast_next_15_days
                     (Sample.table_of Sample.ten)) =
      Return (VDict [("15_day_forecast", VDict d)]) /\
    keys d = day_labels /\
    map snd d = map VFloat (repeat 5.0%float 15) /\
    List.length d = 15%nat /\
    http_status (response (get_db (lib := Sample.naive) forecast_next_15_days
                                  (Sample.table_of Sample.ten))) = 200.
Proof.
  assert (H : 10 <= len (Sample.table_of Sample.ten)) by discriminate.
  split; [exact H|]. split; [exact naive_has_steps|].
  exact (forecast_returns_15_day_labels (lib := Sample.naive)
           (Sample.table_of Sample.ten) Sample.ten 5.0%float
           (repeat 5.0%float 15) H naive_has_steps eq_refl eq_refl eq_refl).
Defined.

Lemma model_fit_error_propagates_witness :
  10 <= len (Sample.table_of Sample.ten) /\
  fit (Statsmodels := Sample.failing) Sample.ten = inl Sample.LinAlgError /\
  response (get_db (lib := Sample.failing) forecast_next_15_days
                   (Sample.table_of Sample.ten)) = Raise (LibError Sample.LinAlgError) /\
  response (get_db (lib := Sample.failing) forecast_next_15_days
                   (Sample.table_of Sample.ten)) <> Return insufficient_data /\
  response (get_db (lib := Sample.failing) forecast_next_15_days
                   (Sample.table_of Sample.ten)) <> Raise not_found.
Proof.
  split; [discriminate|]. split; [reflexivity|].
  destruct (model_fit_error_propagates (lib := Sample.failing)
              (Sample.table_of Sample.ten) Sample.LinAlgError)
    as (Hraise & _ & _ & Hdata & Hfound & _).
  - discriminate.
  - right; left. exists Sample.ten. split; reflexivity.
  - repeat split; assumption.
Defined.

Lemma latest_is_last_of_all_witness :
  wf_table (Sample.table_of Sample.three) /\
  exists vs v,
    response (get_db (lib := Sample.naive) get_all_water_levels
                     (Sample.table_of Sample.three)) =
      Return (VDict [("all_levels", VList (map VFloat (vs ++ [v])))]) /\
    response (get_db (lib := Sample.naive) get_latest_water_level
                     (Sample.table_of Sample.three)) =
      Return (VDict [("latest_level", VFloat v)]).
Proof.
  split; [apply wf_table_of|].
  apply (latest_is_last_of_all (lib := Sample.naive)
           (Sample.table_of Sample.three) (wf_table_of Sample.three)).
  discriminate.
Defined.

Lemma insertions_are_kept_in_order_witness :
  Forall (fun v => is_null v = false) [1.0; -0.0; 3.0]%float /\
  map r_level
      (fold_left (serve_insertion (lib := Sample.naive))
                 [One (mkWaterLevel 1.0%float);
                  Many (mkWaterLevels [mkWaterLevel (-0.0)%float;
                                       mkWaterLevel 3.0%float])]
                 []) = [1.0; 0.0; 3.0]%float /\
  map r_id
      (fold_left (serve_insertion (lib := Sample.naive))
                 [One (mkWaterLevel 1.0%float);
                  Many (mkWaterLevels [mkWaterLevel (-0.0)%float;
                                       mkWaterLevel 3.0%float])]
                 []) = [1; 2; 3].
Proof.
  assert (H : Forall (fun v => is_null v = false) [1.0; -0.0; 3.0]%float)
    by (repeat constructor).
  split; [exact H|].
  destruct (insertions_are_kept_in_order (lib := Sample.naive)
              [One (mkWaterLevel 1.0%float);
               Many (mkWaterLevels [mkWaterLevel (-0.0)%float;
                                    mkWaterLevel 3.0%float])]
              H) as (Hlevels & Hids & _).
  - discriminate.
  - split; [exact Hlevels | exact Hids].
Defined.

(** C5, as stated, fails for N = 0: after no insertion at all the all
    request does not return the empty list of levels, it raises the 404. *)
Lemma all_of_nothing_is_not_found :
  response (get_db (lib := Sample.naive) get_all_water_levels
                   (fold_left (serve_insertion (lib := Sample.naive)) [] [])) =
    Raise not_found /\
  response (get_db (lib := Sample.naive) get_all_water_levels
                   (fold_left (serve_insertion (lib := Sample.naive)) [] [])) <>
    Return (VDict [("all_levels", VList (map VFloat []))]).
Proof. split; [reflexivity | discriminate]. Qed.

(** C2, as stated, fails on ten readings one of which is an infinity.  A
    batch of these ten values is accepted and stored; the model library
    refuses the series, and the forecast request raises that error instead
    of returning 15 predictions. *)
Lemma forecast_of_ten_readings_raises :
  table_after (get_db (add_multiple_water_levels (lib := Sample.finite_only)
                         (mkWaterLevels (map mkWaterLevel Sample.ten_with_infinity)))
                      []) = Sample.table_of Sample.ten_with_infinity /\
  10 <= len (Sample.table_of Sample.ten_with_infinity) /\
  response (get_db (lib := Sample.finite_only) forecast_next_15_days
                   (Sample.table_of Sample.ten_with_infinity)) =
    Raise (LibError Sample.ValueError) /\
  forall d,
    response (get_db (lib := Sample.finite_only) forecast_next_15_days
                     (Sample.table_of Sample.ten_with_infinity)) <>
      Return (VDict [("15_day_forecast", VDict d)]).
Proof.
  split; [reflexivity|]. split; [discriminate|]. split; [reflexivity|].
  intros d. discriminate.
Qed.

Lemma ten_equal_is_constant : constant_series Sample.ten_equal.
Proof.
  intros x y Hx Hy. unfold Sample.ten_equal in *.
  apply repeat_spec in Hx, Hy. congruence.
Qed.

(** C7, as stated, fails on a degenerate series: on ten equal readings, with
    a model library that returns on them, the forecast request raises
    nothing; it returns the fifteen forecasts and is answered with 200. *)
Lemma constant_series_is_forecast :
  constant_series Sample.ten_equal /\
  10 <= len (Sample.table_of Sample.ten_equal) /\
  response (get_db (lib := Sample.naive) forecast_next_15_days
                   (Sample.table_of Sample.ten_equal)) =
    Return (VDict [("15_day_forecast",
                    VDict (combine day_labels (repeat (VFloat 5.0%float) 15)))]) /\
  http_status (response (get_db (lib := Sample.naive) forecast_next_15_days
                                (Sample.table_of Sample.ten_equal))) = 200 /\
  forall e,
    response (get_db (lib := Sample.naive) forecast_next_15_days
                     (Sample.table_of Sample.ten_equal)) <> Raise e.
Proof.
  split; [exact ten_equal_is_constant|]. split; [discriminate|].
  split; [reflexivity|]. split; [reflexivity|]. intros e. discriminate.
Qed.

Lemma batch_insert_all_or_nothing_witness :
  has_room Sample.sparse_three 2 /\
  response (get_db (add_multiple_water_levels (lib := Sample.naive)
                      (mkWaterLevels [mkWaterLevel (-0.0)%float;
                                      mkWaterLevel 4.0%float]))
                   Sample.sparse_three) =
    Return (VDict [("message", VStr "Water levels added successfully");
                   ("levels", VList [VFloat 0.0%float; VFloat 4.0%float])]) /\
  table_after (get_db (add_multiple_water_levels (lib := Sample.naive)
                         (mkWaterLevels [mkWaterLevel (-0.0)%float;
                                         mkWaterLevel 4.0%float]))
                      Sample.sparse_three) =
    Sample.sparse_three ++ [mkRow 10 0.0%float; mkRow 11 4.0%float].
Proof.
  assert (Hroom : has_room Sample.sparse_three 2) by (unfold has_room; cbn; lia).
  split; [exact Hroom|].
  destruct (proj2 (batch_insert_all_or_nothing (lib := Sample.naive)
                     (mkWaterLevels [mkWaterLevel (-0.0)%float;
                                     mkWaterLevel 4.0%float])
                     Sample.sparse_three) Hroom)
    as [(_ & rows & Hresp & Htable & Hlevels & Hids) | (Hno & _)].
  - split; [exact Hresp|]. rewrite Htable. f_equal.
    destruct rows as [|[i1 v1] [|[i2 v2] [|? ?]]]; try discriminate Hlevels.
    cbn in Hlevels, Hids. injection Hlevels as -> ->. injection Hids as -> ->.
    reflexivity.
  - discriminate Hno.
Defined.

(** * Further properties of the handlers *)

Section Coverage.

Context {Float : Type} {fl : Floats Float} {db : SQLite Float}
        {lib : Statsmodels Float}.

Implicit Types (t : @Table Float) (r : @row Float) (v : Float) (vs : list Float).

(** The three places where the model library may raise, as before. *)
Ltac library_cases :=
  match goal with
  | |- context [ARIMA ?d ?o] =>
      let model := fresh "model" in
      let model_fit := fresh "model_fit" in
      let e := fresh "e" in
      destruct (ARIMA d o) as [e|model];
      [|destruct (fit model) as [e|model_fit];
        [|match goal with
          | |- context [forecast model_fit ?n] => destruct (forecast model_fit n)
          end]]
  end.

(** ** The day labels *)

Lemma str_inj (n m : Z) : str n = str m -> n = m.
Proof.
  unfold str. intros H. apply DecimalZ.to_int_inj.
  assert (Hnil : forall k, Z.to_int k <> Decimal.Pos Decimal.Nil /\
                           Z.to_int k <> Decimal.Neg Decimal.Nil).
  { intros [|q|q]; cbn; split; try discriminate;
      intros [= Hq]; exact (DecimalPos.Unsigned.to_uint_nonnil q Hq). }
  destruct (Hnil n) as [Hn1 Hn2], (Hnil m) as [Hm1 Hm2].
  pose proof (NilZero.isi _ Hn1 Hn2) as En.
  pose proof (NilZero.isi _ Hm1 Hm2) as Em.
  rewrite H in En. rewrite En in Em. now injection Em.
Qed.

Lemma day_label_inj (n m : Z) : ("day_" ++ str n = "day_" ++ str m)%string -> n = m.
Proof. cbn. intros [= H]. now apply str_inj. Qed.

Lemma dict_set_new {V : Type} (d : list (string * V)) (k : string) (x : V) :
  ~ In k (keys d) -> dict_set d k x = d ++ [(k, x)].
Proof.
  induction d as [|[k' x'] d IH]; intros Hk; [reflexivity|].
  cbn [dict_set]. destruct (String.eqb_spec k' k) as [->|Hne].
  - elim Hk. now left.
  - cbn [app]. rewrite IH; [reflexivity|]. intros Hin. apply Hk. now right.
Qed.

Lemma day_entries_from_keys (i : Z) (p : list Float) (k : string) :
  In k (keys (map (fun '(j, level) => (("day_" ++ str (j + 1))%string, VFloat level))
                  (enumerate_from i p))) ->
  exists j, i <= j /\ k = ("day_" ++ str (j + 1))%string.
Proof.
  revert i; induction p as [|x p IH]; intros i H; [destruct H|].
  cbn [enumerate_from map keys fst] in H. destruct H as [<- | H].
  - exists i. split; [lia | reflexivity].
  - destruct (IH (i + 1) H) as (j & Hj & ->). exists j. split; [lia | reflexivity].
Qed.

Lemma fold_day_entries (p : list Float) (i : Z) (d : list (string * value)) :
  (forall j, i <= j -> ~ In ("day_" ++ str (j + 1))%string (keys d)) ->
  fold_left (fun d '(j, level) => dict_set d ("day_" ++ str (j + 1)) (VFloat level))
            (enumerate_from i p) d =
  d ++ map (fun '(j, level) => (("day_" ++ str (j + 1))%string, VFloat level))
           (enumerate_from i p).
Proof.
  revert i d; induction p as [|x p IH]; intros i d Hd.
  - cbn. now rewrite app_nil_r.
  - cbn [enumerate_from fold_left map].
    rewrite dict_set_new by (apply Hd; lia).
    rewrite IH.
    + now rewrite <- app_assoc.
    + intros j Hj. unfold keys. rewrite map_app, in_app_iff. cbn [map fst In].
      intros [Hin | [Heq | []]].
      * apply (Hd j); [lia | exact Hin].
      * apply day_label_inj in Heq. lia.
Qed.

Lemma forecast_dict_entries (p : list Float) : forecast_dict p = day_entries p.
Proof.
  unfold forecast_dict, day_entries, enumerate.
  rewrite fold_day_entries; [reflexivity|]. intros j _ [].
Qed.

Lemma day_entries_nodup (i : Z) (p : list Float) :
  NoDup (keys (map (fun '(j, level) => (("day_" ++ str (j + 1))%string, VFloat level))
                   (enumerate_from i p))).
Proof.
  revert i; induction p as [|x p IH]; intros i; cbn [enumerate_from map keys fst];
    constructor; [|apply IH].
  intros Hin. apply day_entries_from_keys in Hin as (j & Hj & Heq).
  apply day_label_inj in Heq. lia.
Qed.

Lemma day_entries_keys (i : Z) (p : list Float) :
  keys (map (fun '(j, level) => (("day_" ++ str (j + 1))%string, VFloat level))
            (enumerate_from i p)) =
  map (fun j => ("day_" ++ str j)%string) (count_from (i + 1) (List.length p)).
Proof.
  revert i; induction p as [|x p IH]; intros i; [reflexivity|].
  cbn [enumerate_from map keys fst List.length count_from].
  f_equal. apply IH.
Qed.

Lemma day_entries_values (i : Z) (p : list Float) :
  map snd (map (fun '(j, level) => (("day_" ++ str (j + 1))%string, VFloat level))
               (enumerate_from i p)) = map VFloat p.
Proof.
  revert i; induction p as [|x p IH]; intros i; [reflexivity|].
  cbn [enumerate_from map snd]. f_equal. apply IH.
Qed.

(** X1: whatever list the library hands back, of any length, the forecast
    payload has exactly one entry per prediction: the keys are day_1,
    day_2, ... up to the number of predictions, all different, and the i-th
    key holds the i-th prediction.  The handler does not check that there
    are 15 of them. *)
Theorem forecast_payload_follows_prediction t
    (model : ARIMAModel) (model_fit : ARIMAResults) (p : list Float) :
  10 <= len t ->
  ARIMA (map r_level t) (5, 1, 0) = inr model ->
  fit model = inr model_fit ->
  forecast model_fit 15 = inr p ->
  exists d,
    response (get_db forecast_next_15_days t) =
      Return (VDict [("15_day_forecast", VDict d)]) /\
    keys d = map (fun j => ("day_" ++ str j)%string) (count_from 1 (List.length p)) /\
    map snd d = map VFloat p /\
    NoDup (keys d).
Proof.
  intros Hlen HA Hf Hp.
  rewrite forecast_next_15_days_run. cbn zeta.
  unfold len in *. rewrite length_map.
  destruct (Z.ltb_spec (Z.of_nat (List.length t)) 10); [lia|].
  rewrite HA, Hf, Hp. exists (forecast_dict p).
  rewrite forecast_dict_entries. unfold response, day_entries, enumerate. cbn [fst].
  split; [reflexivity|]. split; [apply (day_entries_keys 0)|].
  split; [apply day_entries_values | apply day_entries_nodup].
Qed.

(** ** The forecast engine and its caller *)

(** X2: the engine returns a list exactly when building the model on the
    history with order (5, 1, 0), fitting it and forecasting [days_ahead]
    steps all return, and the list is that forecast; a forecast is only ever
    asked of the fit of that model and with [days_ahead] steps; and after a
    failed construction the construction is the only library call made. *)
Theorem engine_result_characterised (data : list Float) (days_ahead : Z)
    (s : State) (p : list Float) :
  (fst (forecast_water_levels data days_ahead s) = Return p <->
   exists model model_fit,
     ARIMA data (5, 1, 0) = inr model /\ fit model = inr model_fit /\
     forecast model_fit days_ahead = inr p) /\
  exists new,
    lib_calls (snd (forecast_water_levels data days_ahead s)) = lib_calls s ++ new /\
    (forall model_fit steps,
        In (Call_forecast model_fit steps) new ->
        steps = days_ahead /\
        exists model, ARIMA data (5, 1, 0) = inr model /\ fit model = inr model_fit) /\
    (forall e, ARIMA data (5, 1, 0) = inl e -> new = [Call_ARIMA data (5, 1, 0)]) /\
    (forall model e,
        ARIMA data (5, 1, 0) = inr model -> fit model = inl e ->
        new = [Call_ARIMA data (5, 1, 0); Call_fit model]).
Proof.
  rewrite forecast_water_levels_run. cbn zeta.
  destruct (ARIMA data (5, 1, 0)) as [e|model] eqn:HA;
    [|destruct (fit model) as [e|model_fit] eqn:Hf;
      [|destruct (forecast model_fit days_ahead) as [e|p'] eqn:Hp]];
    cbn [fst snd lib_calls].
  - split.
    + split; [discriminate | intros (m & r & [=] & _)].
    + eexists; split; [reflexivity|]. split; [|split].
      * intros mf steps [H|[]]. discriminate H.
      * reflexivity.
      * intros m e0 [=].
  - split.
    + split; [discriminate|].
      intros (m & r & [= <-] & Hr & _). rewrite Hf in Hr. discriminate Hr.
    + eexists; split; [reflexivity|]. split; [|split].
      * intros mf steps [H|[H|[]]]; discriminate H.
      * intros e0 [=].
      * intros m e0 [= <-] _. reflexivity.
  - split.
    + split; [discriminate|].
      intros (m & r & [= <-] & Hr & Hq). rewrite Hf in Hr. injection Hr as <-.
      rewrite Hp in Hq. discriminate Hq.
    + eexists; split; [reflexivity|]. split; [|split].
      * intros mf steps [H|[H|[H|[]]]]; try discriminate H.
        injection H as <- <-. split; [reflexivity|]. now exists model.
      * intros e0 [=].
      * intros m e0 [= <-] He. rewrite Hf in He. discriminate He.
  - split.
    + split.
      * intros [= <-]. now exists model, model_fit.
      * intros (m & r & [= <-] & Hr & Hq). rewrite Hf in Hr. injection Hr as <-.
        rewrite Hp in Hq. now injection Hq as <-.
    + eexists; split; [reflexivity|]. split; [|split].
      * intros mf steps [H|[H|[H|[]]]]; try discriminate H.
        injection H as <- <-. split; [reflexivity|]. now exists model.
      * intros e0 [=].
      * intros m e0 [= <-] He. rewrite Hf in He. discriminate He.
Qed.

(** X3: when [forecast(steps=n)] returns [n] values whenever it returns,
    every list the engine returns has exactly [days_ahead] entries; so with
    a negative [days_ahead] the engine returns nothing: it can only raise. *)
Theorem engine_returns_days_ahead_values (data : list Float) (days_ahead : Z)
    (s : State) :
  forecast_has_steps lib ->
  (forall p, fst (forecast_water_levels data days_ahead s) = Return p ->
             len p = days_ahead) /\
  (days_ahead < 0 ->
   exists e, fst (forecast_water_levels data days_ahead s) = Raise e).
Proof.
  intros Hsteps.
  assert (Hlen : forall p, fst (forecast_water_levels data days_ahead s) = Return p ->
                           len p = days_ahead).
  { intros p. rewrite forecast_water_levels_run. cbn zeta.
    destruct (ARIMA data (5, 1, 0)) as [e|model]; [discriminate|].
    destruct (fit model) as [e|model_fit]; [discriminate|].
    destruct (forecast model_fit days_ahead) as [e|p'] eqn:Hp; [discriminate|].
    cbn [fst]. intros [= <-]. exact (Hsteps _ _ _ Hp). }
  split; [exact Hlen|]. intros Hneg.
  destruct (fst (forecast_water_levels data days_ahead s)) as [p|e] eqn:E.
  - specialize (Hlen p eq_refl). unfold len in Hlen. lia.
  - now exists e.
Qed.

(** X4: the forecast request calls the model library exactly when there are
    at least 10 stored readings, and then its first call builds the model on
    the stored levels, in table order, with order (5, 1, 0). *)
Theorem forecast_calls_library_iff_ten_readings t :
  (calls_made (get_db forecast_next_15_days t) = [] <-> len t < 10) /\
  hd_error (calls_made (get_db forecast_next_15_days t)) =
    if len t <? 10 then None else Some (Call_ARIMA (map r_level t) (5, 1, 0)).
Proof.
  rewrite forecast_next_15_days_run. cbn zeta.
  unfold len. rewrite length_map.
  destruct (Z.ltb_spec (Z.of_nat (List.length t)) 10) as [Hlt|Hge].
  - unfold calls_made; cbn [snd]. repeat split. intros _. exact Hlt.
  - library_cases; unfold calls_made; cbn [snd hd_error];
      (split; [split; [discriminate | lia] | reflexivity]).
Qed.

(** X5: with at least 10 stored readings, the series the model is built on
    is exactly the list the all request returns, in the same order. *)
Theorem forecast_is_fitted_on_what_all_returns t :
  10 <= len t ->
  exists levels,
    response (get_db get_all_water_levels t) =
      Return (VDict [("all_levels", VList (map VFloat levels))]) /\
    hd_error (calls_made (get_db forecast_next_15_days t)) =
      Some (Call_ARIMA levels (5, 1, 0)).
Proof.
  intros Hlen. exists (map r_level t).
  rewrite get_all_water_levels_run, forecast_next_15_days_run. cbn zeta.
  unfold len in *. rewrite length_map.
  destruct (Z.ltb_spec (Z.of_nat (List.length t)) 10); [lia|].
  destruct t as [|r0 t0]; [cbn in Hlen; lia|].
  split; [reflexivity|].
  library_cases; reflexivity.
Qed.

(** X6: the two POST requests and the two read requests never call the model
    library. *)
Theorem only_forecast_calls_the_library t (d1 : WaterLevel) (d2 : WaterLevels) :
  calls_made (get_db (add_water_level d1) t) = [] /\
  calls_made (get_db (add_multiple_water_levels d2) t) = [] /\
  calls_made (get_db get_latest_water_level t) = [] /\
  calls_made (get_db get_all_water_levels t) = [].
Proof.
  rewrite add_water_level_run, add_multiple_water_levels_run,
    get_latest_water_level_run, get_all_water_levels_run.
  repeat split.
  - destruct (sql_insert t (level d1)) as [e|[t' r]]; reflexivity.
  - destruct (insert_all t (map level (levels d2))) as [e|[t' rows]]; reflexivity.
  - destruct (hd_error _); reflexivity.
  - destruct t; reflexivity.
Qed.

Lemma sql_insert_error t v (e : exn) :
  sql_insert t v = inl e -> e = OperationalError \/ e = IntegrityError.
Proof.
  unfold sql_insert. destruct (new_rowid t); [|intros [= <-]; now left].
  destruct (is_null v); [intros [= <-]; now right | discriminate].
Qed.

Lemma insert_all_error t vs (e : exn) :
  insert_all t vs = inl e -> e = OperationalError \/ e = IntegrityError.
Proof.
  revert t; induction vs as [|v vs IH]; intros t; cbn [insert_all]; [discriminate|].
  destruct (sql_insert t v) as [e'|[t1 r]] eqn:E.
  - intros [= <-]. exact (sql_insert_error _ _ _ E).
  - destruct (insert_all t1 vs) as [e'|[t2 rows]] eqn:E'; [|discriminate].
    intros [= <-]. exact (IH _ E').
Qed.

Lemma status_of_return (payload : value) :
  http_status (Return payload) = 200 \/ http_status (Return payload) = 500.
Proof. cbn. destruct (json_ok payload); auto. Qed.

(** X7: the status each request is answered with, on any table, ordered or
    not.  A read request answers 404 exactly when the table is empty;
    otherwise it answers 200 when every level it returns is finite and 500
    when one is not, the payload having no JSON encoding.  A POST request
    and the forecast request answer 200 or 500, never 404. *)
Theorem status_codes t (d1 : WaterLevel) (d2 : WaterLevels) :
  http_status (response (get_db get_latest_water_level t)) =
    match hd_error (order_by_id_desc t) with
    | None => 404
    | Some r => if isfinite (r_level r) then 200 else 500
    end /\
  (hd_error (order_by_id_desc t) = None <-> t = []) /\
  http_status (response (get_db get_all_water_levels t)) =
    match t with
    | [] => 404
    | _ :: _ => if forallb isfinite (map r_level t) then 200 else 500
    end /\
  (http_status (response (get_db (add_water_level d1) t)) = 200 \/
   http_status (response (get_db (add_water_level d1) t)) = 500) /\
  (http_status (response (get_db (add_multiple_water_levels d2) t)) = 200 \/
   http_status (response (get_db (add_multiple_water_levels d2) t)) = 500) /\
  (http_status (response (get_db forecast_next_15_days t)) = 200 \/
   http_status (response (get_db forecast_next_15_days t)) = 500).
Proof.
  rewrite add_water_level_run, add_multiple_water_levels_run,
    get_latest_water_level_run, get_all_water_levels_run,
    forecast_next_15_days_run.
  cbn zeta. split; [|split; [|split; [|split; [|split]]]].
  - destruct (hd_error (order_by_id_desc t)) as [r|]; [|reflexivity].
    unfold response; cbn. now rewrite andb_true_r.
  - split.
    + destruct (order_by_id_desc t) eqn:E; [|discriminate].
      intros _. now apply order_by_id_desc_nil.
    + intros ->. reflexivity.
  - destruct t as [|r0 t0]; [reflexivity|].
    unfold response. cbn [fst http_status json_ok forallb snd].
    now rewrite json_ok_floats, !andb_true_r.
  - destruct (sql_insert t (level d1)) as [e|[t' r]] eqn:E.
    + right. destruct (sql_insert_error _ _ _ E) as [-> | ->]; reflexivity.
    + apply status_of_return.
  - destruct (insert_all t (map level (levels d2))) as [e|[t' rows]] eqn:E.
    + right. destruct (insert_all_error _ _ _ E) as [-> | ->]; reflexivity.
    + apply status_of_return.
  - destruct (len (map r_level t) <? 10); [now left|].
    library_cases; unfold response; cbn [fst];
      first [apply status_of_return | now right].
Qed.

(** ** ORDER BY id DESC on any table *)

Lemma place_desc_In r (l : list row) (x : row) :
  In x (place_desc r l) <-> x = r \/ In x l.
Proof.
  induction l as [|r' l IH]; cbn [place_desc In].
  - intuition.
  - destruct (r_id r' <? r_id r); cbn [In]; rewrite ?IH; intuition.
Qed.

Lemma order_by_id_desc_In t (x : row) : In x (order_by_id_desc t) <-> In x t.
Proof.
  induction t as [|r t IH]; [reflexivity|].
  cbn [order_by_id_desc fold_right].
  change (fold_right place_desc [] t) with (order_by_id_desc t).
  rewrite place_desc_In, IH. cbn [In]. intuition.
Qed.

Lemma order_by_id_desc_head t r (l : list row) :
  order_by_id_desc t = r :: l -> Forall (fun x => r_id x <= r_id r) t.
Proof.
  revert r l; induction t as [|a t IH]; intros r l H; [constructor|].
  cbn [order_by_id_desc fold_right] in H.
  change (fold_right place_desc [] t) with (order_by_id_desc t) in H.
  destruct (order_by_id_desc t) as [|r' l'] eqn:E.
  - apply order_by_id_desc_nil in E. subst t. cbn in H. injection H as <- _.
    repeat constructor. lia.
  - specialize (IH r' l' eq_refl). cbn [place_desc] in H.
    destruct (Z.ltb_spec (r_id r') (r_id a)); injection H as <- _.
    + constructor; [lia|]. eapply Forall_impl; [|exact IH]. cbn; intros; lia.
    + constructor; [lia | exact IH].
Qed.

(** X8: on any non-empty table, ordered or not, the latest request returns
    the level of a row of the table whose id is at least every id in the
    table, and leaves the table as it was. *)
Theorem latest_has_greatest_id (r0 : row) (t0 : Table) :
  exists r,
    In r (r0 :: t0) /\
    Forall (fun r' => r_id r' <= r_id r) (r0 :: t0) /\
    get_db get_latest_water_level (r0 :: t0) =
      (Return (VDict [("latest_level", VFloat (r_level r))]), r0 :: t0, []).
Proof.
  rewrite get_latest_water_level_run.
  destruct (order_by_id_desc (r0 :: t0)) as [|r l] eqn:E.
  - apply order_by_id_desc_nil in E. discriminate E.
  - exists r. split; [|split].
    + apply order_by_id_desc_In. rewrite E. now left.
    + exact (order_by_id_desc_head _ _ _ E).
    + reflexivity.
Qed.

(** ** Single inserts *)

(** X9: a single insert stores one row or nothing.  With room below the
    rowid ceiling: when SQLite accepts the value, the request returns the
    level it read back from the new row, which is the posted value as the
    REAL column holds it, and is answered with 200 when that level is
    finite; the table grows by that one row, placed last, whose id is the
    largest id so far plus one (1 on an empty table) and so larger than
    every id in use.  When SQLite refuses the value, the request raises
    IntegrityError and the table is as before. *)
Theorem single_insert_outcome (data : WaterLevel) t :
  has_room t 1 ->
  (is_null (level data) = false /\
   response (get_db (add_water_level data) t) =
     Return (VDict [("message", VStr "Water level added successfully");
                    ("level", VFloat (as_real (level data)))]) /\
   http_status (response (get_db (add_water_level data) t)) =
     (if isfinite (as_real (level data)) then 200 else 500) /\
   table_after (get_db (add_water_level data) t) =
     t ++ [mkRow (next_rowid t) (as_real (level data))] /\
   next_rowid t = match max_rowid t with None => 1 | Some m => m + 1 end /\
   Forall (fun r => r_id r < next_rowid t) t)
  \/
  (is_null (level data) = true /\
   response (get_db (add_water_level data) t) = Raise IntegrityError /\
   table_after (get_db (add_water_level data) t) = t).
Proof.
  intros Hroom. rewrite (add_water_level_room data t Hroom).
  destruct (is_null (level data)); [right | left]; repeat split.
  - unfold response; cbn. now rewrite andb_true_r.
  - apply next_rowid_fresh.
Qed.

(** ** Requests in sequence *)

(** X10: what a sequence of POST requests, accepted or refused, leaves in the
    table when there is room below the rowid ceiling for the values posted.
    The rows present before stay first, unchanged; after them come the
    values of the accepted requests as the REAL column holds them, in
    request order and in input order within a batch, with consecutive ids
    from the next free one.  A refused request stores nothing and uses up
    no id. *)
Theorem requests_store_the_accepted_values (qs : list insertion) t :
  has_room t (List.length (List.concat (map inserted_levels qs))) ->
  exists rows,
    fold_left serve_insertion qs t = t ++ rows /\
    map r_level rows = List.concat (map stored_levels qs) /\
    map r_id rows = count_from (next_rowid t) (List.length rows) /\
    Forall (fun r' => Forall (fun r => r_id r < r_id r') t) rows.
Proof.
  intros Hroom.
  exists (number_rows (next_rowid t) (List.concat (map stored_levels qs))).
  rewrite (serve_requests_stored qs t Hroom), number_rows_levels, number_rows_ids,
    number_rows_length.
  repeat split.
  eapply Forall_impl; [|apply number_rows_range]. cbn. intros r' Hr'.
  eapply Forall_impl; [|apply next_rowid_fresh]. cbn. intros; lia.
Qed.

(** X11: with room below the rowid ceiling, posting values one at a time
    stores exactly the accepted ones, as the REAL column holds them, in
    order; posting them as one batch stores the same table when every value
    is accepted and nothing at all when one is refused. *)
Theorem batch_versus_single_posts vs t :
  has_room t (List.length vs) ->
  fold_left serve_insertion (map (fun v => One (mkWaterLevel v)) vs) t =
    t ++ number_rows (next_rowid t)
                     (map as_real (filter (fun v => negb (is_null v)) vs)) /\
  serve_insertion t (Many (mkWaterLevels (map mkWaterLevel vs))) =
    if forallb (fun v => negb (is_null v)) vs
    then fold_left serve_insertion (map (fun v => One (mkWaterLevel v)) vs) t
    else t.
Proof.
  intros Hroom.
  assert (Hin : List.concat (map inserted_levels
                                 (map (fun v => One (mkWaterLevel v)) vs)) = vs).
  { clear Hroom. induction vs as [|v vs IH]; [reflexivity|].
    cbn [map List.concat inserted_levels level app]. now rewrite IH. }
  assert (Hone : List.concat (map stored_levels
                                  (map (fun v => One (mkWaterLevel v)) vs)) =
                 map as_real (filter (fun v => negb (is_null v)) vs)).
  { clear Hroom Hin. induction vs as [|v vs IH]; [reflexivity|].
    cbn [map List.concat filter]. rewrite IH. unfold stored_levels.
    cbn [inserted_levels level forallb]. now destruct (is_null v). }
  rewrite serve_requests_stored by (now rewrite Hin). rewrite Hone.
  split; [reflexivity|].
  rewrite serve_insertion_stored
    by (cbn [inserted_levels levels]; now rewrite !length_map).
  unfold stored_levels.
  cbn [inserted_levels levels]. rewrite map_map. cbn [level]. rewrite map_id.
  destruct (forallb _ vs) eqn:E.
  - do 3 f_equal. symmetry. apply forallb_filter_id. exact E.
  - cbn. now rewrite app_nil_r.
Qed.

(** X12: the order of the table is an invariant of the POST requests: a
    table in strictly increasing id order is still so after any sequence of
    them, accepted or refused. *)
Theorem requests_keep_the_table_ordered (qs : list insertion) t :
  wf_table t -> wf_table (fold_left serve_insertion qs t).
Proof.
  revert t; induction qs as [|q qs IH]; intros t H; [exact H|].
  cbn [fold_left]. apply IH. now apply wf_table_served.
Qed.

(** ** Insert, then read *)

Lemma latest_after_rows t (rows : list row) (x : row) :
  Forall (fun r => r_id r < r_id x) (t ++ rows) ->
  hd_error (order_by_id_desc (t ++ rows ++ [x])) = Some x.
Proof.
  intros Hlt. destruct (order_by_id_desc (t ++ rows ++ [x])) as [|r l] eqn:E.
  - apply order_by_id_desc_nil in E. destruct t, rows; discriminate E.
  - cbn [hd_error]. f_equal.
    pose proof (order_by_id_desc_head _ _ _ E) as Hmax.
    assert (Hin : In r (t ++ rows ++ [x]))
      by (apply order_by_id_desc_In; rewrite E; now left).
    rewrite Forall_forall in Hmax, Hlt.
    assert (Hx : r_id x <= r_id r)
      by (apply Hmax; rewrite app_assoc; apply in_or_app; right; now left).
    rewrite app_assoc in Hin. apply in_app_or in Hin as [Hin | [<- | []]];
      [|reflexivity].
    specialize (Hlt _ Hin). lia.
Qed.

(** X13: an accepted insert can be read back at once, while the rowids fit
    below the ceiling.  After an accepted request that posts at least one
    value, the all request returns the levels that were there followed by
    the posted ones as the REAL column holds them, in input order, and the
    latest request returns the last of them. *)
Theorem insert_then_read t (q : insertion) (ws : list Float) (w : Float) :
  inserted_levels q = ws ++ [w] ->
  Forall (fun v => is_null v = false) (inserted_levels q) ->
  has_room t (List.length (inserted_levels q)) ->
  response (get_db get_all_water_levels (serve_insertion t q)) =
    Return (VDict [("all_levels",
                    VList (map VFloat
                               (map r_level t ++ map as_real (ws ++ [w]))))]) /\
  response (get_db get_latest_water_level (serve_insertion t q)) =
    Return (VDict [("latest_level", VFloat (as_real w))]).
Proof.
  intros Hq Hok Hroom.
  rewrite (serve_insertion_stored t q Hroom), (stored_levels_accepted q Hok), Hq.
  rewrite map_app, number_rows_app. cbn [map number_rows].
  rewrite get_all_water_levels_run, get_latest_water_level_run.
  rewrite latest_after_rows.
  - split.
    + destruct (t ++ number_rows (next_rowid t) (map as_real ws) ++ _)
        as [|r0 t0] eqn:E; [destruct t, ws; discriminate E|].
      rewrite <- E. unfold response; cbn [fst].
      rewrite !map_app, number_rows_levels. reflexivity.
    + reflexivity.
  - cbn [r_id]. apply Forall_app; split.
    + eapply Forall_impl; [|apply next_rowid_fresh]. cbn. unfold len; intros; lia.
    + eapply Forall_impl; [|apply number_rows_range]. cbn. intros; lia.
Qed.

(** ** What the forecast and the reads depend on *)

(** X14: the all request and the forecast request see the levels only, in
    table order: on two tables with the same levels in the same order,
    whatever their ids, both requests answer the same and the forecast makes
    the same library calls. *)
Theorem reads_depend_on_levels_only (t1 t2 : Table) :
  map r_level t1 = map r_level t2 ->
  response (get_db get_all_water_levels t1) =
    response (get_db get_all_water_levels t2) /\
  response (get_db forecast_next_15_days t1) =
    response (get_db forecast_next_15_days t2) /\
  calls_made (get_db forecast_next_15_days t1) =
    calls_made (get_db forecast_next_15_days t2).
Proof.
  intros H. rewrite !get_all_water_levels_run, !forecast_next_15_days_run.
  cbn zeta. rewrite H. split; [|split].
  - destruct t1, t2; try discriminate H; reflexivity.
  - destruct (len (map r_level t2) <? 10); [reflexivity|].
    library_cases; reflexivity.
  - destruct (len (map r_level t2) <? 10); [reflexivity|].
    library_cases; reflexivity.
Qed.

(** X15: the tenth reading enables the forecast.  On a table of 9 rows the
    forecast request answers that there is not enough data and calls
    nothing; after one accepted single insert, with room below the rowid
    ceiling, the same request builds the model on the 9 stored levels
    followed by the new one as the REAL column holds it. *)
Theorem tenth_reading_enables_forecast t (data : WaterLevel) :
  len t = 9 ->
  is_null (level data) = false ->
  has_room t 1 ->
  get_db forecast_next_15_days t = (Return insufficient_data, t, []) /\
  hd_error (calls_made (get_db forecast_next_15_days
                               (table_after (get_db (add_water_level data) t)))) =
    Some (Call_ARIMA (map r_level t ++ [as_real (level data)]) (5, 1, 0)).
Proof.
  intros Hlen Hok Hroom. rewrite (add_water_level_room data t Hroom), Hok.
  unfold table_after; cbn [fst snd].
  rewrite !forecast_next_15_days_run. cbn zeta.
  rewrite map_app. cbn [map r_level].
  unfold len in *. rewrite length_app, !length_map. cbn [List.length].
  destruct (Z.ltb_spec (Z.of_nat (List.length t)) 10); [|lia].
  destruct (Z.ltb_spec (Z.of_nat (List.length t + 1)) 10); [lia|].
  split; [reflexivity|]. library_cases; reflexivity.
Qed.

End Coverage.

(** ** The further properties at concrete inputs *)

Lemma forecast_payload_follows_prediction_witness :
  10 <= len (Sample.table_of Sample.ten) /\
  exists d,
    response (get_db (lib := Sample.two_values) forecast_next_15_days
                     (Sample.table_of Sample.ten)) =
      Return (VDict [("15_day_forecast", VDict d)]) /\
    keys d = ["day_1"; "day_2"]%string /\
    map snd d = [VFloat 0%float; VFloat 0%float].
Proof.
  assert (H : 10 <= len (Sample.table_of Sample.ten)) by discriminate.
  split; [exact H|].
  destruct (forecast_payload_follows_prediction (lib := Sample.two_values)
              (Sample.table_of Sample.ten) Sample.ten 0%float [0%float; 0%float]
              H eq_refl eq_refl eq_refl)
    as (d & Hd & Hk & Hv & _).
  exists d. repeat split; assumption.
Defined.

Lemma engine_returns_days_ahead_values_witness :
  forecast_has_steps Sample.naive /\
  (forall p,
      fst (forecast_water_levels (lib := Sample.naive) Sample.ten 3
                                 (mkState [] [] [] [])) = Return p ->
      len p = 3) /\
  exists e,
    fst (forecast_water_levels (lib := Sample.naive) Sample.ten (-1)
                               (mkState [] [] [] [])) = Raise e.
Proof.
  split; [exact naive_has_steps|]. split.
  - exact (proj1 (engine_returns_days_ahead_values (lib := Sample.naive)
                    Sample.ten 3 (mkState [] [] [] []) naive_has_steps)).
  - apply (proj2 (engine_returns_days_ahead_values (lib := Sample.naive)
                    Sample.ten (-1) (mkState [] [] [] []) naive_has_steps)).
    reflexivity.
Defined.

Lemma forecast_is_fitted_on_what_all_returns_witness :
  10 <= len (Sample.table_of Sample.ten) /\
  exists levels,
    response (get_db (lib := Sample.naive) get_all_water_levels
                     (Sample.table_of Sample.ten)) =
      Return (VDict [("all_levels", VList (map VFloat levels))]) /\
    hd_error (calls_made (get_db (lib := Sample.naive) forecast_next_15_days
                                 (Sample.table_of Sample.ten))) =
      Some (Call_ARIMA levels (5, 1, 0)).
Proof.
  split; [discriminate|].
  apply (forecast_is_fitted_on_what_all_returns (lib := Sample.naive)).
  discriminate.
Defined.

Lemma requests_keep_the_table_ordered_witness :
  wf_table Sample.full_table /\
  wf_table (fold_left (serve_insertion (lib := Sample.naive))
                      [One (mkWaterLevel 4.0%float);
                       Many (mkWaterLevels [mkWaterLevel 5.0%float; mkWaterLevel nan]);
                       One (mkWaterLevel 6.0%float)]
                      Sample.full_table).
Proof.
  assert (H : wf_table Sample.full_table).
  { unfold wf_table. cbn. repeat constructor. }
  split; [exact H|].
  apply (requests_keep_the_table_ordered (lib := Sample.naive)).
  exact H.
Defined.

Lemma single_insert_outcome_witness :
  has_room Sample.sparse_three 1 /\
  response (get_db (add_water_level (lib := Sample.naive)
                      (mkWaterLevel (-0.0)%float)) Sample.sparse_three) =
    Return (VDict [("message", VStr "Water level added successfully");
                   ("level", VFloat 0.0%float)]) /\
  table_after (get_db (add_water_level (lib := Sample.naive)
                         (mkWaterLevel (-0.0)%float)) Sample.sparse_three) =
    Sample.sparse_three ++ [mkRow 10 0.0%float].
Proof.
  assert (Hroom : has_room Sample.sparse_three 1) by (unfold has_room; cbn; lia).
  split; [exact Hroom|].
  destruct (single_insert_outcome (lib := Sample.naive)
              (mkWaterLevel (-0.0)%float) Sample.sparse_three Hroom)
    as [(_ & Hresp & _ & Htable & _) | (Hno & _)].
  - split; [exact Hresp | exact Htable].
  - discriminate Hno.
Defined.

Lemma requests_store_the_accepted_values_witness :
  has_room Sample.sparse_three 4 /\
  exists rows,
    fold_left (serve_insertion (lib := Sample.naive))
              [One (mkWaterLevel 4.0%float);
               Many (mkWaterLevels [mkWaterLevel 5.0%float; mkWaterLevel nan]);
               One (mkWaterLevel (-0.0)%float)]
              Sample.sparse_three = Sample.sparse_three ++ rows /\
    map r_level rows = [4.0; 0.0]%float /\
    map r_id rows = [10; 11].
Proof.
  assert (Hroom : has_room Sample.sparse_three 4) by (unfold has_room; cbn; lia).
  split; [exact Hroom|].
  destruct (requests_store_the_accepted_values (lib := Sample.naive)
              [One (mkWaterLevel 4.0%float);
               Many (mkWaterLevels [mkWaterLevel 5.0%float; mkWaterLevel nan]);
               One (mkWaterLevel (-0.0)%float)]
              Sample.sparse_three Hroom)
    as (rows & Htable & Hlevels & Hids & _).
  exists rows. split; [exact Htable|]. split; [exact Hlevels|].
  rewrite Hids. rewrite <- (length_map r_level), Hlevels. reflexivity.
Defined.

Lemma batch_versus_single_posts_witness :
  has_room Sample.sparse_three 3 /\
  fold_left (serve_insertion (lib := Sample.naive))
            (map (fun v => One (mkWaterLevel v)) [4.0; nan; 5.0]%float)
            Sample.sparse_three =
    Sample.sparse_three ++ [mkRow 10 4.0%float; mkRow 11 5.0%float] /\
  serve_insertion (lib := Sample.naive) Sample.sparse_three
                  (Many (mkWaterLevels (map mkWaterLevel [4.0; nan; 5.0]%float))) =
    Sample.sparse_three.
Proof.
  assert (Hroom : has_room Sample.sparse_three 3) by (unfold has_room; cbn; lia).
  split; [exact Hroom|].
  exact (batch_versus_single_posts (lib := Sample.naive)
           [4.0; nan; 5.0]%float Sample.sparse_three Hroom).
Defined.

Lemma insert_then_read_witness :
  Forall (fun v => is_null v = false) [4.0%float; (-0.0)%float] /\
  has_room Sample.sparse_three 2 /\
  response (get_db (lib := Sample.naive) get_all_water_levels
                   (serve_insertion (lib := Sample.naive)
                      Sample.sparse_three
                      (Many (mkWaterLevels [mkWaterLevel 4.0%float;
                                            mkWaterLevel (-0.0)%float])))) =
    Return (VDict [("all_levels",
                    VList (map VFloat [1.0; 2.0; 3.0; 4.0; 0.0]%float))]) /\
  response (get_db (lib := Sample.naive) get_latest_water_level
                   (serve_insertion (lib := Sample.naive)
                      Sample.sparse_three
                      (Many (mkWaterLevels [mkWaterLevel 4.0%float;
                                            mkWaterLevel (-0.0)%float])))) =
    Return (VDict [("latest_level", VFloat 0.0%float)]).
Proof.
  assert (H : Forall (fun v => is_null v = false) [4.0%float; (-0.0)%float])
    by (repeat constructor).
  assert (Hroom : has_room Sample.sparse_three 2) by (unfold has_room; cbn; lia).
  split; [exact H|]. split; [exact Hroom|].
  exact (insert_then_read (lib := Sample.naive) Sample.sparse_three
           (Many (mkWaterLevels [mkWaterLevel 4.0%float; mkWaterLevel (-0.0)%float]))
           [4.0%float] (-0.0)%float eq_refl H Hroom).
Defined.

Lemma reads_depend_on_levels_only_witness :
  map r_level (Sample.table_of Sample.three) = map r_level Sample.sparse_three /\
  response (get_db (lib := Sample.naive) get_all_water_levels
                   (Sample.table_of Sample.three)) =
    response (get_db (lib := Sample.naive) get_all_water_levels Sample.sparse_three) /\
  response (get_db (lib := Sample.naive) forecast_next_15_days
                   (Sample.table_of Sample.three)) =
    response (get_db (lib := Sample.naive) forecast_next_15_days Sample.sparse_three) /\
  calls_made (get_db (lib := Sample.naive) forecast_next_15_days
                     (Sample.table_of Sample.three)) =
    calls_made (get_db (lib := Sample.naive) forecast_next_15_days Sample.sparse_three).
Proof.
  split; [reflexivity|].
  apply (reads_depend_on_levels_only (lib := Sample.naive)). reflexivity.
Defined.

Lemma tenth_reading_enables_forecast_witness :
  len (Sample.table_of Sample.nine) = 9 /\
  is_null 5.0%float = false /\
  has_room (Sample.table_of Sample.nine) 1 /\
  get_db (lib := Sample.naive) forecast_next_15_days (Sample.table_of Sample.nine) =
    (Return insufficient_data, Sample.table_of Sample.nine, []) /\
  hd_error (calls_made
              (get_db (lib := Sample.naive) forecast_next_15_days
                 (table_after (get_db (add_water_level (lib := Sample.naive)
                                         (mkWaterLevel 5.0%float))
                                      (Sample.table_of Sample.nine))))) =
    Some (Call_ARIMA Sample.ten (5, 1, 0)).
Proof.
  assert (Hroom : has_room (Sample.table_of Sample.nine) 1)
    by (unfold has_room; cbn; lia).
  split; [reflexivity|]. split; [reflexivity|]. split; [exact Hroom|].
  exact (tenth_reading_enables_forecast (lib := Sample.naive)
           (Sample.table_of Sample.nine) (mkWaterLevel 5.0%float)
           eq_refl eq_refl Hroom).
Defined.

(** * Scenarios *)

Module Scenarios.

Import Sample.

(** An empty store: the latest request raises the 404, the forecast request
    answers that there is not enough data. *)
Example empty_store :
  get_db (lib := naive) get_latest_water_level [] = (Raise not_found, [], []) /\
  get_db (lib := naive) forecast_next_15_days [] = (Return insufficient_data, [], []).
Proof. split; reflexivity. Qed.

(** Three single inserts, then the two reads. *)
Example three_inserts :
  let t1 := table_after (get_db (post_one 1.0%float) []) in
  let t2 := table_after (get_db (post_one 2.0%float) t1) in
  let t3 := table_after (get_db (post_one 3.0%float) t2) in
  t3 = table_of three /\
  response (get_db (lib := naive) get_all_water_levels t3) =
    Return (VDict [("all_levels", VList [VFloat 1.0%float; VFloat 2.0%float; VFloat 3.0%float])]) /\
  response (get_db (lib := naive) get_latest_water_level t3) =
    Return (VDict [("latest_level", VFloat 3.0%float)]).
Proof. repeat split. Qed.

(** A batch of ten, then the forecast: the library is called three times and
    the payload has the fifteen day labels. *)
Example batch_then_forecast :
  table_after (get_db (post_many ten) []) = table_of ten /\
  get_db (lib := naive) forecast_next_15_days (table_of ten) =
    (Return (VDict [("15_day_forecast",
                     VDict (combine day_labels (repeat (VFloat 5.0%float) 15)))]),
     table_of ten,
     [Call_ARIMA ten (5, 1, 0); Call_fit (ten : @ARIMAModel _ naive);
      Call_forecast (5.0%float : @ARIMAResults _ naive) 15]).
Proof. split; reflexivity. Qed.

(** A batch with a NaN in the middle: nothing is stored. *)
Example batch_with_nan :
  get_db (post_many [1.0; nan; 3.0]%float) (table_of three) =
    (Raise IntegrityError, table_of three, []).
Proof. reflexivity. Qed.

(** A fit that raises: the request raises the same exception. *)
Example fit_raises :
  response (get_db (lib := failing) forecast_next_15_days (table_of ten)) =
    Raise (LibError LinAlgError).
Proof. reflexivity. Qed.

(** A negative zero is stored, echoed and read back as 0.0. *)
Example negative_zero :
  get_db (post_one (-0.0)%float) [] =
    (Return (VDict [("message", VStr "Water level added successfully");
                    ("level", VFloat 0.0%float)]),
     [mkRow 1 0.0%float], []).
Proof. reflexivity. Qed.

(** An infinity is stored, but the answer to the POST and to the reads
    after it cannot be encoded: they are sent as 500. *)
Example infinity_is_stored :
  table_after (get_db (post_one infinity) []) = [mkRow 1 infinity] /\
  http_status (response (get_db (post_one infinity) [])) = 500 /\
  http_status (response (get_db (lib := naive) get_latest_water_level
                                [mkRow 1 infinity])) = 500 /\
  http_status (response (get_db (lib := naive) get_all_water_levels
                                [mkRow 1 infinity])) = 500.
Proof. repeat split. Qed.

(** At the rowid ceiling the new row takes an unused rowid, here 2: it is
    not the last row, and the latest request still returns the old level. *)
Example at_the_ceiling :
  table_after (get_db (post_one 3.0%float) full_table) =
    [mkRow 1 1.0%float; mkRow 2 3.0%float; mkRow MAX_ROWID 2.0%float] /\
  response (get_db (lib := naive) get_latest_water_level
                   (table_after (get_db (post_one 3.0%float) full_table))) =
    Return (VDict [("latest_level", VFloat 2.0%float)]).
Proof. split; reflexivity. Qed.

End Scenarios.
